(** * CloudCoffee: the persistence store and the Gemini error taxonomy

    A shallow embedding of [server/routes/persistence.ts] (the file-based
    store and its image files) and of [parseGeminiError] /
    [handleGeminiError] from the Gemini route module, with the properties
    the specification states about them. *)

From Stdlib Require Import ZArith NArith String Ascii DecimalString.
From Stdlib.Strings Require Import Byte.
From stdpp Require Import gmap strings list fin_maps.

Set Warnings "-register-all".

Local Open Scope string_scope.
Local Open Scope Z_scope.

(** ** Strings

    A JavaScript string is represented by its UTF-8 bytes.  The needles
    searched for below are ASCII, and UTF-8 never contains an ASCII byte
    inside a multi-byte character, so searching bytes agrees with
    searching UTF-16 code units. *)

(** [s.startsWith(p)], returning what follows the prefix. *)
Fixpoint strip_prefix (p s : string) : option string :=
  match p, s with
  | EmptyString, _ => Some s
  | String a p', String b s' =>
      if Ascii.eqb a b then strip_prefix p' s' else None
  | String _ _, EmptyString => None
  end.

(** [hay.includes(needle)]. *)
Fixpoint includes (needle hay : string) : bool :=
  match strip_prefix needle hay with
  | Some _ => true
  | None =>
      match hay with
      | EmptyString => false
      | String _ rest => includes needle rest
      end
  end.

Definition lower_ascii (c : ascii) : ascii :=
  let n := nat_of_ascii c in
  if ((65 <=? n) && (n <=? 90))%nat then ascii_of_nat (n + 32) else c.

(** [s.toLowerCase()] on the ASCII letters.  The only non-ASCII characters
    whose lower case contains an ASCII letter are U+212A (to k) and U+0130
    (to i followed by U+0307); neither can complete the needles
    ['rate limit'] or ['quota'], so for the two searches made on the
    lowered message this agrees with the full Unicode mapping. *)
Fixpoint toLowerCase (s : string) : string :=
  match s with
  | EmptyString => EmptyString
  | String c rest => String (lower_ascii c) (toLowerCase rest)
  end.

(** Template-literal rendering of an integer, [`${n}`]. *)
Definition dec (n : Z) : string := NilZero.string_of_int (Z.to_int n).

(** ** JSON values

    Numbers are restricted to integers (ids, versions, status codes and
    epoch milliseconds are all integers).  An object is the list of its
    key/value pairs in property order; [None] at type [option json] is
    JavaScript's [undefined]. *)

Inductive json : Type :=
| JNull
| JBool (b : bool)
| JNum (n : Z)
| JStr (s : string)
| JArr (items : list json)
| JObj (fields : list (string * json)).

Definition obj : Type := list (string * json).

(** JavaScript truthiness, as used by [!x], [x || y] and [if (x)]. *)
Definition truthy (v : option json) : bool :=
  match v with
  | None | Some JNull | Some (JBool false) => false
  | Some (JNum n) => negb (n =? 0)
  | Some (JStr s) => negb (String.eqb s "")
  | Some _ => true
  end.

(** [x || y] *)
Definition or_else (x : option json) (y : json) : option json :=
  if truthy x then x else Some y.

Fixpoint obj_get (k : string) (o : obj) : option json :=
  match o with
  | [] => None
  | (k', v) :: rest => if String.eqb k k' then Some v else obj_get k rest
  end.

(** [o[k] = v]: an existing property keeps its position, a new one goes
    last. *)
Fixpoint obj_set (k : string) (v : json) (o : obj) : obj :=
  match o with
  | [] => [(k, v)]
  | (k', v') :: rest =>
      if String.eqb k k' then (k, v) :: rest else (k', v') :: obj_set k v rest
  end.

(** An object literal as it reaches [JSON.stringify]: the properties whose
    value is [undefined] are left out. *)
Fixpoint literal (props : list (string * option json)) : obj :=
  match props with
  | [] => []
  | (k, Some v) :: rest => (k, v) :: literal rest
  | (_, None) :: rest => literal rest
  end.

(** ** The AI gateway: classification of remote-model failures *)

Module Gateway.

(** The thrown value, as far as [parseGeminiError] looks at it: the
    [message] property when it is a string (else [None]), the result of
    [String(error)], and the four properties a status may come from. *)
Record GeminiError : Type := {
  err_message : option string;
  err_String : string;
  err_status : option json;
  err_statusCode : option json;
  err_httpStatusCode : option json;
  err_code : option json
}.

Record Parsed : Type := { status : Z; message : string; code : string }.

(** [a || b] on possibly undefined values. *)
Definition oror (a b : option json) : option json := if truthy a then a else b.

(** [error.message || String(error)] *)
Definition msg_of (error : GeminiError) : string :=
  match err_message error with
  | Some m => if String.eqb m "" then err_String error else m
  | None => err_String error
  end.

(** [error.status || error.statusCode || error.httpStatusCode || error.code] *)
Definition status_of (error : GeminiError) : option json :=
  oror (oror (oror (err_status error) (err_statusCode error))
             (err_httpStatusCode error))
       (err_code error).

(** [status === n] for a number literal [n]. *)
Definition is_num (v : option json) (n : Z) : bool :=
  match v with
  | Some (JNum m) => m =? n
  | _ => false
  end.

Definition msg_rate_limited : string :=
  "Limite de requisições da API Gemini atingido. Aguarde alguns segundos e tente novamente.".
Definition msg_unavailable : string :=
  "O serviço Gemini está temporariamente indisponível. Tente novamente em instantes.".
Definition msg_bad_request : string :=
  "A requisição foi bloqueada (possível filtro de segurança ou dados inválidos).".
Definition msg_auth : string :=
  "Erro de autenticação com a API Gemini. Verifique as credenciais do projeto.".
Definition msg_internal_prefix : string :=
  "Erro interno ao chamar a API Gemini: ".

Definition parseGeminiError (error : GeminiError) : Parsed :=
  let msg := msg_of error in
  let status := status_of error in
  if is_num status 429 || includes "429" msg || includes "RESOURCE_EXHAUSTED" msg
     || includes "rate limit" (toLowerCase msg) || includes "quota" (toLowerCase msg)
  then {| status := 429; message := msg_rate_limited; code := "RATE_LIMITED" |}
  else if is_num status 503 || includes "503" msg || includes "UNAVAILABLE" msg
  then {| status := 503; message := msg_unavailable; code := "SERVICE_UNAVAILABLE" |}
  else if is_num status 400 || includes "400" msg || includes "INVALID_ARGUMENT" msg
          || includes "SAFETY" msg
  then {| status := 400; message := msg_bad_request; code := "BAD_REQUEST" |}
  else if is_num status 401 || is_num status 403 || includes "401" msg
          || includes "403" msg || includes "PERMISSION_DENIED" msg
          || includes "UNAUTHENTICATED" msg
  then {| status := 403; message := msg_auth; code := "AUTH_ERROR" |}
  else {| status := 500; message := msg_internal_prefix ++ msg; code := "INTERNAL_ERROR" |}.

(** What a call of [handleGeminiError] does: one line on the server's
    console and one response to the caller. *)
Record Handled : Type := {
  logged : string * string;
  res_status : Z;
  res_json : json
}.

Definition handleGeminiError (endpoint : string) (error : GeminiError) : Handled :=
  let parsed := parseGeminiError error in
  {| logged := (endpoint ++ " error [" ++ code parsed ++ "]:", msg_of error);
     res_status := status parsed;
     res_json := JObj [("error", JStr (message parsed)); ("code", JStr (code parsed))] |}.

(** *** The taxonomy, for stating the properties *)

Inductive ErrorClass : Type :=
| RateLimited | ServiceUnavailable | BadRequest | AuthError | InternalError.

Definition class_code (c : ErrorClass) : string :=
  match c with
  | RateLimited => "RATE_LIMITED"
  | ServiceUnavailable => "SERVICE_UNAVAILABLE"
  | BadRequest => "BAD_REQUEST"
  | AuthError => "AUTH_ERROR"
  | InternalError => "INTERNAL_ERROR"
  end.

Definition class_status (c : ErrorClass) : Z :=
  match c with
  | RateLimited => 429
  | ServiceUnavailable => 503
  | BadRequest => 400
  | AuthError => 403
  | InternalError => 500
  end.

(** The triggers of the four named classes, as the code tests them. *)
Definition rate_limit_trigger (error : GeminiError) : bool :=
  is_num (status_of error) 429
  || includes "429" (msg_of error)
  || includes "RESOURCE_EXHAUSTED" (msg_of error)
  || includes "rate limit" (toLowerCase (msg_of error))
  || includes "quota" (toLowerCase (msg_of error)).

Definition unavailable_trigger (error : GeminiError) : bool :=
  is_num (status_of error) 503
  || includes "503" (msg_of error)
  || includes "UNAVAILABLE" (msg_of error).

Definition bad_request_trigger (error : GeminiError) : bool :=
  is_num (status_of error) 400
  || includes "400" (msg_of error)
  || includes "INVALID_ARGUMENT" (msg_of error)
  || includes "SAFETY" (msg_of error).

Definition auth_trigger (error : GeminiError) : bool :=
  is_num (status_of error) 401
  || is_num (status_of error) 403
  || includes "401" (msg_of error)
  || includes "403" (msg_of error)
  || includes "PERMISSION_DENIED" (msg_of error)
  || includes "UNAUTHENTICATED" (msg_of error).

(** The first class, in priority order, whose trigger fires. *)
Definition classify (error : GeminiError) : ErrorClass :=
  if rate_limit_trigger error then RateLimited
  else if unavailable_trigger error then ServiceUnavailable
  else if bad_request_trigger error then BadRequest
  else if auth_trigger error then AuthError
  else InternalError.

(** The same classification with the triggers exactly as the specification
    lists them: ['rate limit'] and ['quota'] searched in the message as it
    is, and no ['UNAUTHENTICATED'] among the authentication triggers. *)
Definition listed_classify (error : GeminiError) : ErrorClass :=
  let msg := msg_of error in
  let status := status_of error in
  if is_num status 429 || includes "429" msg || includes "RESOURCE_EXHAUSTED" msg
     || includes "rate limit" msg || includes "quota" msg
  then RateLimited
  else if is_num status 503 || includes "503" msg || includes "UNAVAILABLE" msg
  then ServiceUnavailable
  else if is_num status 400 || includes "400" msg || includes "INVALID_ARGUMENT" msg
          || includes "SAFETY" msg
  then BadRequest
  else if is_num status 401 || is_num status 403 || includes "401" msg
          || includes "403" msg || includes "PERMISSION_DENIED" msg
  then AuthError
  else InternalError.

(** The text the caller receives: the [error] property of the response. *)
Definition response_text (h : Handled) : string :=
  match res_json h with
  | JObj fields =>
      match obj_get "error" fields with
      | Some (JStr m) => m
      | _ => ""
      end
  | _ => ""
  end.

(** An [Error] carrying nothing but a message. *)
Definition plain_error (m : string) : GeminiError :=
  {| err_message := Some m; err_String := "Error: " ++ m;
     err_status := None; err_statusCode := None;
     err_httpStatusCode := None; err_code := None |}.

End Gateway.

(** ** The persistence store *)

Module Persistence.

(** *** The world a handler runs in *)

(** An absolute path, as its segments below the file-system root.  A last
    segment [""] stands for a trailing slash. *)
Abbreviation path := (list string).

(** A regular file.  [StoreDoc d] is a text file that [JSON.parse] reads as
    the object [d] (and that [JSON.stringify(d, null, 2)] writes); every
    other file is a [Blob], on which [JSON.parse] fails.  Store files
    holding JSON text that is not an object are outside the model. *)
Inductive file : Type :=
| Blob (bytes : list Byte.byte)
| StoreDoc (d : obj).

(** One reading of the system clock: what [Date.now()] returns and what
    [new Date().toISOString()] returns at that moment. *)
Record Reading : Type := { ms : Z; iso : string }.

(** What the handlers take from their runtime: where the application is
    installed ([__dirname/../..]), the successive clock readings, the
    successive [Math.random()] draws as their base-36 fraction digits, and
    [Buffer.from(_, 'base64')]. *)
Record Runtime : Type := {
  app_root : path;
  clock : nat -> Reading;
  random : nat -> list nat;
  Buffer_from_base64 : string -> list Byte.byte
}.

(** [fs] holds the regular files; [dirs_made] tells whether [data/] and
    [data/images/] exist (the directories above them always do, and no
    other directories are modelled); [ticks] and [draws] count the clock
    readings and random draws made so far. *)
Record World : Type := {
  fs : gmap path file;
  dirs_made : bool;
  ticks : nat;
  draws : nat
}.

Definition with_fs (f : gmap path file) (w : World) : World :=
  {| fs := f; dirs_made := dirs_made w; ticks := ticks w; draws := draws w |}.

(** *** Exceptions and the handler monad *)

(** A thrown [Error], with its [message].  The texts of the errors the
    engine raises are V8's; nothing below depends on them. *)
Inductive exn : Type :=
| TypeError (m : string)
| SyntaxError (m : string)
| SystemError (m : string).

Definition exn_message (e : exn) : string :=
  match e with TypeError m | SyntaxError m | SystemError m => m end.

Inductive outcome (A : Type) : Type :=
| Ret (a : A)
| Throw (e : exn).
Arguments Ret {A} a.
Arguments Throw {A} e.

Definition M (A : Type) : Type := World -> outcome A * World.

Definition ret {A} (a : A) : M A := fun w => (Ret a, w).
Definition throw {A} (e : exn) : M A := fun w => (Throw e, w).
Definition bind {A B} (c : M A) (k : A -> M B) : M B :=
  fun w =>
    match c w with
    | (Ret a, w') => k a w'
    | (Throw e, w') => (Throw e, w')
    end.
Definition lift {A} (o : outcome A) : M A := fun w => (o, w).

Notation "'let!' x ':=' c 'in' k" := (bind c (fun x => k))
  (at level 10, x name, c at level 100, k at level 200).
Notation "'do!' c 'in' k" := (bind c (fun _ => k))
  (at level 10, c at level 100, k at level 200).

Inductive Body : Type :=
| Json (j : json)
| SendFile (p : path).

Record Response : Type := { status : Z; body : Body }.

Definition json_error (st : Z) (m : string) : Response :=
  {| status := st; body := Json (JObj [("error", JStr m)]) |}.

Definition json_ok (j : json) : Response := {| status := 200; body := Json j |}.

(** [try { ... } catch (error) { res.status(500).json({ error: error.message }) }];
    a handler's body computes the one response it sends.  The line the
    [catch] block prints on the console is left out. *)
Definition try_catch (handler : M Response) : World -> Response * World :=
  fun w =>
    match handler w with
    | (Ret r, w') => (r, w')
    | (Throw e, w') => (json_error 500 (exn_message e), w')
    end.

(** *** Values *)

(** [v[k]] for a property name that is no built-in of strings or arrays
    (the handlers read [id], [imageFile] and [startedAt]). *)
Definition get_prop (v : json) (k : string) : outcome (option json) :=
  match v with
  | JNull => Throw (TypeError ("Cannot read properties of null (reading '" ++ k ++ "')"))
  | JObj o => Ret (obj_get k o)
  | _ => Ret None
  end.

(** [v === id] where [id] is a string or [undefined]. *)
Definition strict_eq (v : option json) (id : option string) : bool :=
  match v, id with
  | None, None => true
  | Some (JStr s), Some i => String.eqb s i
  | _, _ => false
  end.

(** [items.findIndex(item => item.id === id)]; [None] is [-1]. *)
Fixpoint findIndex (id : option string) (items : list json) : outcome (option nat) :=
  match items with
  | [] => Ret None
  | item :: rest =>
      match get_prop item "id" with
      | Throw e => Throw e
      | Ret v =>
          if strict_eq v id then Ret (Some 0%nat)
          else match findIndex id rest with
               | Ret (Some i) => Ret (Some (S i))
               | r => r
               end
      end
  end.

(** [store[key]] used as an array: what calling an array method on it
    does when it is none. *)
Definition as_array (key method : string) (store : obj) : outcome (list json) :=
  match obj_get key store with
  | Some (JArr items) => Ret items
  | None =>
      Throw (TypeError ("Cannot read properties of undefined (reading '" ++ method ++ "')"))
  | Some JNull =>
      Throw (TypeError ("Cannot read properties of null (reading '" ++ method ++ "')"))
  | Some _ => Throw (TypeError ("store." ++ key ++ "." ++ method ++ " is not a function"))
  end.

(** [store[key].unshift(entry)] *)
Definition unshift (key : string) (entry : obj) (store : obj) : outcome obj :=
  match as_array key "unshift" store with
  | Ret items => Ret (obj_set key (JArr (JObj entry :: items)) store)
  | Throw e => Throw e
  end.

(** [arr.splice(idx, 1)] *)
Definition splice1 (idx : nat) (items : list json) : list json :=
  (take idx items ++ drop (S idx) items)%list.

(** *** Paths *)

(** [s.split('/')] *)
Fixpoint split_slash (s : string) : list string :=
  match s with
  | EmptyString => [EmptyString]
  | String c rest =>
      if Ascii.eqb c "/" then EmptyString :: split_slash rest
      else match split_slash rest with
           | seg :: segs => String c seg :: segs
           | [] => [String c EmptyString]
           end
  end.

Definition join_step (p : path) (seg : string) : path :=
  if String.eqb seg "" || String.eqb seg "." then p
  else if String.eqb seg ".." then removelast p
  else (p ++ [seg])%list.

Definition ends_with_slash (s : string) : bool :=
  match last (split_slash s) with
  | Some seg => String.eqb seg "" && negb (String.eqb s "")
  | None => false
  end.

(** POSIX [path.join(dir, name)] for a normalised absolute [dir]: empty
    and [.] segments vanish, [..] steps up (not above the root), a
    trailing slash stays. *)
Definition path_join (dir : path) (name : string) : path :=
  let p := fold_left join_step (split_slash name) dir in
  if ends_with_slash name then (p ++ [""])%list else p.

(** [Math.random().toString(36).slice(2, 6)]: the first four fraction
    digits, fewer when the expansion is shorter. *)
Definition digit36 (d : nat) : ascii :=
  let d := (d mod 36)%nat in
  if (d <? 10)%nat then ascii_of_nat (48 + d) else ascii_of_nat (87 + d).

Definition suffix36 (digits : list nat) : string :=
  string_of_list_ascii (map digit36 (take 4 digits)).

(** *** The data URI pattern [/^data:image\/\w+;base64,(.+)$/] *)

Definition is_word (c : ascii) : bool :=
  let n := nat_of_ascii c in
  ((48 <=? n) && (n <=? 57) || (65 <=? n) && (n <=? 90)
   || (97 <=? n) && (n <=? 122) || (n =? 95))%nat.

Fixpoint skip_word (s : string) : string :=
  match s with
  | String c rest => if is_word c then skip_word rest else s
  | EmptyString => EmptyString
  end.

Definition LF : string := String (ascii_of_nat 10) EmptyString.
Definition CR : string := String (ascii_of_nat 13) EmptyString.
(** U+2028 and U+2029 in UTF-8. *)
Definition LS : string :=
  String (ascii_of_nat 226) (String (ascii_of_nat 128) (String (ascii_of_nat 168) EmptyString)).
Definition PS : string :=
  String (ascii_of_nat 226) (String (ascii_of_nat 128) (String (ascii_of_nat 169) EmptyString)).

(** Whether [.+] cannot run over the whole of [s]: [.] stops at the four
    line terminators. *)
Definition has_line_terminator (s : string) : bool :=
  includes LF s || includes CR s || includes LS s || includes PS s.

(** [imageData.match(...)]: the first capture group, or [None] for
    [null]. *)
Definition data_uri_match (imageData : string) : option string :=
  match strip_prefix "data:image/" imageData with
  | Some (String c rest) =>
      if is_word c then
        match strip_prefix ";base64," (skip_word rest) with
        | Some payload =>
            if String.eqb payload "" || has_line_terminator payload then None
            else Some payload
        | None => None
        end
      else None
  | _ => None
  end.

(** *** The handlers *)

Section Handlers.

Variable rt : Runtime.

(** [path.join(__dirname, '..', '..', 'data')] and the two paths below
    it. *)
Definition DATA_DIR : path := (app_root rt ++ ["data"])%list.
Definition IMAGES_DIR : path := (DATA_DIR ++ ["images"])%list.
Definition STORE_FILE : path := (DATA_DIR ++ ["store.json"])%list.

(** The path without its trailing slash. *)
Definition drop_slash (p : path) : path :=
  match last p with
  | Some seg => if String.eqb seg "" then removelast p else p
  | None => p
  end.

(** The directories: the application's root and what lies above it, and
    [data/] and [data/images/] once they are made. *)
Definition is_directory (w : World) (p : path) : bool :=
  bool_decide (p `prefix_of` app_root rt)
  || dirs_made w && (bool_decide (p = DATA_DIR) || bool_decide (p = IMAGES_DIR)).

(** [fs.existsSync(p)] *)
Definition existsSync (p : path) : M bool :=
  fun w =>
    (Ret (match fs w !! p with
          | Some _ => true
          | None => is_directory w (drop_slash p)
          end), w).

(** [fs.writeFileSync(p, data)] into an existing directory. *)
Definition writeFileSync (p : path) (f : file) : M unit :=
  fun w => (Ret tt, with_fs (<[p := f]> (fs w)) w).

(** [fs.unlinkSync(p)] *)
Definition unlinkSync (p : path) : M unit :=
  fun w =>
    match fs w !! p with
    | Some _ => (Ret tt, with_fs (delete p (fs w)) w)
    | None =>
        (Throw (SystemError (if is_directory w (drop_slash p)
                             then "EISDIR: illegal operation on a directory, unlink"
                             else "ENOENT: no such file or directory, unlink")), w)
    end.

(** Makes [data/] and [data/images/] unless they exist. *)
Definition ensureDataDir : M unit :=
  fun w => (Ret tt, {| fs := fs w; dirs_made := true; ticks := ticks w; draws := draws w |}).

(** [Date.now()] *)
Definition Date_now : M Z :=
  fun w => (Ret (ms (clock rt (ticks w))),
            {| fs := fs w; dirs_made := dirs_made w; ticks := S (ticks w); draws := draws w |}).

(** [new Date().toISOString()] *)
Definition new_Date_toISOString : M string :=
  fun w => (Ret (iso (clock rt (ticks w))),
            {| fs := fs w; dirs_made := dirs_made w; ticks := S (ticks w); draws := draws w |}).

(** [Math.random().toString(36).slice(2, 6)] *)
Definition Math_random_suffix : M string :=
  fun w => (Ret (suffix36 (random rt (draws w))),
            {| fs := fs w; dirs_made := dirs_made w; ticks := ticks w; draws := S (draws w) |}).

Definition empty : obj :=
  [("version", JNum 1);
   ("generatedImages", JArr []);
   ("visionAnalyses", JArr []);
   ("chatSessions", JArr []);
   ("sustainabilityReports", JArr []);
   ("dashboardSnapshots", JArr [])].

Definition readStore : M obj :=
  do! ensureDataDir in
  fun w =>
    match fs w !! STORE_FILE with
    | None => (Ret empty, with_fs (<[STORE_FILE := StoreDoc empty]> (fs w)) w)
    | Some (Blob _) => (Throw (SyntaxError "Unexpected token in JSON"), w)
    | Some (StoreDoc store) =>
        (Ret (if negb (truthy (obj_get "generatedImages" store))
              then obj_set "generatedImages" (JArr []) store
              else store), w)
    end.

Definition writeStore (data : obj) : M unit :=
  do! ensureDataDir in
  writeFileSync STORE_FILE (StoreDoc data).

(** [GET /api/data] *)
Definition get_data : World -> Response * World :=
  try_catch (
    let! store := readStore in
    ret (json_ok (JObj store))).

(** The [if (imageData) { ... }] block shared by the two image-saving
    handlers: [mk_name] builds the file name when the pattern matches.
    [imageData] is a string when the request has one, as the client's
    [saveGeneratedImage] and [saveVisionAnalysis] declare it. *)
Definition save_image (imageData : option string) (mk_name : M string)
  : M (option string) :=
  match imageData with
  | Some data =>
      if negb (String.eqb data "") then
        match data_uri_match data with
        | Some payload =>
            let! imageFile := mk_name in
            do! writeFileSync (path_join IMAGES_DIR imageFile)
                              (Blob (Buffer_from_base64 rt payload)) in
            ret (Some imageFile)
        | None => ret None
        end
      else ret None
  | None => ret None
  end.

Definition opt_str (s : option string) : json :=
  match s with Some f => JStr f | None => JNull end.

(** [POST /api/data/generated-image] *)
Definition post_generated_image (cameraName : option json) (imageData : option string)
  : World -> Response * World :=
  try_catch (
    let! store := readStore in
    let! t := Date_now in
    let! r := Math_random_suffix in
    let id := "genimg_" ++ dec t ++ "_" ++ r in
    let! imageFile := save_image imageData (
      let! t' := Date_now in
      let! r' := Math_random_suffix in
      ret ("gen_" ++ dec t' ++ "_" ++ r' ++ ".png")) in
    match imageFile with
    | None => ret (json_error 400 "No valid image data provided")
    | Some f =>
        let! timestamp := new_Date_toISOString in
        let entry := literal [("id", Some (JStr id)); ("cameraName", cameraName);
                              ("imageFile", Some (JStr f));
                              ("timestamp", Some (JStr timestamp))] in
        let! store' := lift (unshift "generatedImages" entry store) in
        do! writeStore store' in
        ret (json_ok (JObj entry))
    end).

(** [POST /api/data/vision] *)
Definition post_vision (cameraName : option json) (imageData : option string)
    (task result : option json) : World -> Response * World :=
  try_catch (
    let! store := readStore in
    let! t := Date_now in
    let id := "vision_" ++ dec t in
    let! imageFile := save_image imageData (
      let! t' := Date_now in
      ret ("img_" ++ dec t' ++ ".png")) in
    let! timestamp := new_Date_toISOString in
    let entry := literal [("id", Some (JStr id)); ("cameraName", cameraName);
                          ("imageFile", Some (opt_str imageFile));
                          ("task", task); ("result", result);
                          ("timestamp", Some (JStr timestamp))] in
    let! store' := lift (unshift "visionAnalyses" entry store) in
    do! writeStore store' in
    ret (json_ok (JObj entry))).

(** [POST /api/data/chat]; the request's [id] is a string when present
    ([id?: string] in the client's [saveChatSession]). *)
Definition post_chat (id : option string) (messages : option json)
  : World -> Response * World :=
  try_catch (
    let! store := readStore in
    let! sessions := lift (as_array "chatSessions" "findIndex" store) in
    let! existingIndex := lift (findIndex id sessions) in
    let! id' := match id with
                | Some i => if negb (String.eqb i "") then ret i
                            else let! t := Date_now in ret ("chat_" ++ dec t)
                | None => let! t := Date_now in ret ("chat_" ++ dec t)
                end in
    let! startedAt :=
      match existingIndex with
      | Some i =>
          match sessions !! i with
          | Some s => lift (get_prop s "startedAt")
          | None => ret None
          end
      | None => let! now := new_Date_toISOString in ret (Some (JStr now))
      end in
    let! lastMessageAt := new_Date_toISOString in
    let session := literal [("id", Some (JStr id')); ("messages", messages);
                            ("startedAt", startedAt);
                            ("lastMessageAt", Some (JStr lastMessageAt))] in
    let sessions' :=
      match existingIndex with
      | Some i => <[i := JObj session]> sessions
      | None => JObj session :: sessions
      end in
    do! writeStore (obj_set "chatSessions" (JArr sessions') store) in
    ret (json_ok (JObj session))).

(** [POST /api/data/sustainability] *)
Definition post_sustainability (inputData report charts : option json)
  : World -> Response * World :=
  try_catch (
    let! store := readStore in
    let! t := Date_now in
    let! timestamp := new_Date_toISOString in
    let entry := literal [("id", Some (JStr ("sust_" ++ dec t)));
                          ("inputData", inputData); ("report", report);
                          ("charts", or_else charts (JArr []));
                          ("timestamp", Some (JStr timestamp))] in
    let! store' := lift (unshift "sustainabilityReports" entry store) in
    do! writeStore store' in
    ret (json_ok (JObj entry))).

(** [POST /api/data/dashboard] *)
Definition post_dashboard (insights charts stats text : option json)
  : World -> Response * World :=
  try_catch (
    let! store := readStore in
    let! t := Date_now in
    let! timestamp := new_Date_toISOString in
    let entry := literal [("id", Some (JStr ("dash_" ++ dec t)));
                          ("insights", insights);
                          ("charts", or_else charts (JArr []));
                          ("stats", or_else stats (JObj []));
                          ("text", or_else text (JStr ""));
                          ("timestamp", Some (JStr timestamp))] in
    let! store' := lift (unshift "dashboardSnapshots" entry store) in
    do! writeStore store' in
    ret (json_ok (JObj entry))).

(** The names every object literal inherits from [Object.prototype]:
    [collectionMap[collection]] is truthy for them although they are no
    collection, and [store[key]] is then [undefined]. *)
Definition inherited : list string :=
  ["constructor"; "__proto__"; "hasOwnProperty"; "isPrototypeOf";
   "propertyIsEnumerable"; "toLocaleString"; "toString"; "valueOf";
   "__defineGetter__"; "__defineSetter__"; "__lookupGetter__"; "__lookupSetter__"].

Definition collectionMap (collection : string) : option string :=
  if String.eqb collection "generated-images" then Some "generatedImages"
  else if String.eqb collection "vision" then Some "visionAnalyses"
  else if String.eqb collection "chat" then Some "chatSessions"
  else if String.eqb collection "sustainability" then Some "sustainabilityReports"
  else if String.eqb collection "dashboard" then Some "dashboardSnapshots"
  else None.

(** [DELETE /api/data/:collection/:id] *)
Definition delete_entry (collection id : string) : World -> Response * World :=
  try_catch (
    let! store := readStore in
    match collectionMap collection with
    | None =>
        if bool_decide (collection ∈ inherited)
        then throw (TypeError "Cannot read properties of undefined (reading 'findIndex')")
        else ret (json_error 400 "Invalid collection")
    | Some key =>
        let! arr := lift (as_array key "findIndex" store) in
        let! found := lift (findIndex (Some id) arr) in
        match found with
        | None => ret (json_error 404 "Entry not found")
        | Some idx =>
            do! (if String.eqb key "visionAnalyses" || String.eqb key "generatedImages" then
                   let! imageFile :=
                     match arr !! idx with
                     | Some item => lift (get_prop item "imageFile")
                     | None => ret None
                     end in
                   if truthy imageFile then
                     match imageFile with
                     | Some (JStr name) =>
                         let imagePath := path_join IMAGES_DIR name in
                         let! there := existsSync imagePath in
                         if there then unlinkSync imagePath else ret tt
                     | _ =>
                         throw (TypeError "The path argument must be of type string")
                     end
                   else ret tt
                 else ret tt) in
            do! writeStore (obj_set key (JArr (splice1 idx arr)) store) in
            ret (json_ok (JObj [("success", JBool true)]))
        end
    end).

(** [GET /api/data/images/:filename] *)
Definition get_image (filename : string) : World -> Response * World :=
  try_catch (
    let filePath := path_join IMAGES_DIR filename in
    let! there := existsSync filePath in
    if there then ret {| status := 200; body := SendFile filePath |}
    else ret (json_error 404 "Image not found")).

(** *** The operations, for stating the properties *)

Inductive operation : Type :=
| SaveGeneratedImage (cameraName : option json) (imageData : option string)
| SaveVision (cameraName : option json) (imageData : option string)
             (task result : option json)
| UpsertChat (id : option string) (messages : option json)
| SaveSustainability (inputData report charts : option json)
| SaveDashboard (insights charts stats text : option json)
| Delete (collection id : string).

Definition run (op : operation) : World -> Response * World :=
  match op with
  | SaveGeneratedImage cameraName imageData => post_generated_image cameraName imageData
  | SaveVision cameraName imageData task result =>
      post_vision cameraName imageData task result
  | UpsertChat id messages => post_chat id messages
  | SaveSustainability inputData report charts =>
      post_sustainability inputData report charts
  | SaveDashboard insights charts stats text => post_dashboard insights charts stats text
  | Delete collection id => delete_entry collection id
  end.

(** The [version] of the document in the store file, when there is one. *)
Definition persisted_version (w : World) : option (option json) :=
  match fs w !! STORE_FILE with
  | Some (StoreDoc d) => Some (obj_get "version" d)
  | _ => None
  end.

(** The [version] of the document [readStore] returns, when it returns. *)
Definition loaded_version (w : World) : option (option json) :=
  match readStore w with
  | (Ret store, _) => Some (obj_get "version" store)
  | (Throw _, _) => None
  end.

(** A computation that leaves the stored document's [version] as it
    finds it. *)
Definition keeps {A} (v : option json) (c : M A) : Prop :=
  forall w, persisted_version w = Some v -> persisted_version (snd (c w)) = Some v.

(** A computation that changes no file when it throws. *)
Definition harmless {A} (c : M A) : Prop :=
  forall w e w', c w = (Throw e, w') -> fs w' = fs w.

End Handlers.

(** The document [readStore] returns for a stored document [d]. *)
Definition migrated (d : obj) : obj :=
  if negb (truthy (obj_get "generatedImages" d))
  then obj_set "generatedImages" (JArr []) d
  else d.

(** The world once [ensureDataDir] has run. *)
Definition made (w : World) : World :=
  {| fs := fs w; dirs_made := true; ticks := ticks w; draws := draws w |}.

(** A file name in the narrow sense: not empty, no slash, not [.] or
    [..]. *)
Definition is_plain (name : string) : bool :=
  negb (includes "/" name) && negb (String.eqb name "")
  && negb (String.eqb name ".") && negb (String.eqb name "..").

(** What the data URI pattern captures from a request's [imageData]. *)
Definition image_payload (imageData : option string) : option string :=
  match imageData with
  | Some data => data_uri_match data
  | None => None
  end.

(** The image file a delete removes with the entity [item] of the
    collection [key]. *)
Definition owned_image (key : string) (item : obj) : option string :=
  if String.eqb key "visionAnalyses" || String.eqb key "generatedImages" then
    match obj_get "imageFile" item with
    | Some (JStr name) => if String.eqb name "" then None else Some name
    | _ => None
    end
  else None.

(** An [imageFile] as the handlers write it: absent, [null], or a file
    name.  Only the two collections that own image files are looked at. *)
Definition image_file_ok (key : string) (item : obj) : bool :=
  if String.eqb key "visionAnalyses" || String.eqb key "generatedImages" then
    match obj_get "imageFile" item with
    | None | Some JNull => true
    | Some (JStr name) => String.eqb name "" || is_plain name
    | Some _ => false
    end
  else true.

(** The world after a handler that made the given numbers of clock
    readings and random draws and left the files [files]. *)
Definition after (w : World) (files : gmap path file) (reads drawn : nat) : World :=
  {| fs := files; dirs_made := true;
     ticks := (reads + ticks w)%nat; draws := (drawn + draws w)%nat |}.

(** A property of a JSON response body. *)
Definition body_field (r : Response) (k : string) : option json :=
  match body r with
  | Json (JObj fields) => obj_get k fields
  | _ => None
  end.

(** [startedAt] of the session at index [n]. *)
Definition startedAt_at (sessions : list json) (n : nat) : option json :=
  match sessions !! n with
  | Some (JObj s) => obj_get "startedAt" s
  | _ => None
  end.

(** *** A concrete runtime and concrete worlds *)

Definition sextet (c : ascii) : option N :=
  let n := N_of_ascii c in
  if ((65 <=? n) && (n <=? 90))%N then Some (n - 65)%N
  else if ((97 <=? n) && (n <=? 122))%N then Some (n - 71)%N
  else if ((48 <=? n) && (n <=? 57))%N then Some (n + 4)%N
  else if ((n =? 43) || (n =? 45))%N then Some 62%N
  else if ((n =? 47) || (n =? 95))%N then Some 63%N
  else None.

Definition to_byte (n : N) : Byte.byte :=
  match Byte.of_N (n mod 256) with Some b => b | None => Byte.x00 end.

Fixpoint pack (sextets : list N) : list Byte.byte :=
  match sextets with
  | a :: b :: c :: d :: rest =>
      to_byte (a * 4 + b / 16) :: to_byte (b * 16 + c / 4) :: to_byte (c * 64 + d)
      :: pack rest
  | [a; b; c] => [to_byte (a * 4 + b / 16); to_byte (b * 16 + c / 4)]
  | [a; b] => [to_byte (a * 4 + b / 16)]
  | _ => []
  end.

(** A base64 decoder that skips the characters outside the alphabet. *)
Definition base64_decode (s : string) : list Byte.byte :=
  pack (omap sextet (list_ascii_of_string s)).

Definition millis (k : nat) : string :=
  let k := (k mod 1000)%nat in
  string_of_list_ascii
    [ascii_of_nat (48 + k / 100); ascii_of_nat (48 + (k / 10) mod 10);
     ascii_of_nat (48 + k mod 10)].

(** A clock that advances by one millisecond at every reading, starting at
    2023-11-14T22:13:20Z. *)
Definition ticking (k : nat) : Reading :=
  {| ms := 1700000000000 + Z.of_nat k;
     iso := "2023-11-14T22:13:20." ++ millis k ++ "Z" |}.

Definition rt0 : Runtime :=
  {| app_root := ["srv"; "app"];
     clock := ticking;
     random := fun k => [k; 7; 35; 2; 11]%nat;
     Buffer_from_base64 := base64_decode |}.

Definition world_of (files : list (path * file)) : World :=
  {| fs := list_to_map files; dirs_made := true; ticks := 0; draws := 0 |}.

Definition vision1 : obj :=
  [("id", JStr "vision_1699999999000"); ("cameraName", JStr "Frente de Caixa");
   ("imageFile", JStr "img_1699999999001.png"); ("task", JStr "count people");
   ("timestamp", JStr "2023-11-14T22:13:19.000Z")].

Definition chat1 : obj :=
  [("id", JStr "chat_1"); ("messages", JArr []);
   ("startedAt", JStr "2023-11-14T20:00:00.000Z");
   ("lastMessageAt", JStr "2023-11-14T20:05:00.000Z")].

Definition doc1 : obj :=
  [("version", JNum 1);
   ("generatedImages", JArr []);
   ("visionAnalyses", JArr [JObj vision1]);
   ("chatSessions", JArr [JObj chat1]);
   ("sustainabilityReports", JArr []);
   ("dashboardSnapshots", JArr [])].

(** A store written before [generatedImages] and [visionAnalyses]
    existed. *)
Definition old_doc : obj :=
  [("version", JNum 1); ("chatSessions", JArr [])].

(** The first eight bytes of a PNG file, and a data URI carrying them. *)
Definition png1 : list Byte.byte := base64_decode "iVBORw0KGgo=".
Definition png_uri : string := "data:image/png;base64,iVBORw0KGgo=".

Definition w1 : World :=
  world_of [(STORE_FILE rt0, StoreDoc doc1);
            ((IMAGES_DIR rt0 ++ ["img_1699999999001.png"])%list, Blob png1)].

Definition w_old : World := world_of [(STORE_FILE rt0, StoreDoc old_doc)].

(** A disk without a store file, and one whose store file does not
    parse. *)
Definition w_none : World := world_of [].
Definition w_broken : World := world_of [(STORE_FILE rt0, Blob png1)].

(** *** Further notions for stating properties *)

(** The collection an operation works on. *)
Definition target (op : operation) : option string :=
  match op with
  | SaveGeneratedImage _ _ => Some "generatedImages"
  | SaveVision _ _ _ _ => Some "visionAnalyses"
  | UpsertChat _ _ => Some "chatSessions"
  | SaveSustainability _ _ _ => Some "sustainabilityReports"
  | SaveDashboard _ _ _ _ => Some "dashboardSnapshots"
  | Delete collection _ => collectionMap collection
  end.

Definition is_save (op : operation) : bool :=
  match op with
  | Delete _ _ => false
  | _ => true
  end.

Section Notions.

Variable rt : Runtime.

(** The property [k] of the document in the store file, when there is
    one. *)
Definition persisted_key (k : string) (w : World) : option (option json) :=
  match fs w !! STORE_FILE rt with
  | Some (StoreDoc d) => Some (obj_get k d)
  | _ => None
  end.

(** The property [k] of the document [readStore] returns, when it
    returns. *)
Definition loaded_key (k : string) (w : World) : option (option json) :=
  match readStore rt w with
  | (Ret store, _) => Some (obj_get k store)
  | (Throw _, _) => None
  end.

(** A computation that leaves the stored document's property [k] as it
    finds it. *)
Definition keeps_key {A} (k : string) (v : option json) (c : M A) : Prop :=
  forall w, persisted_key k w = Some v -> persisted_key k (snd (c w)) = Some v.

(** A computation after which every file that was there is still
    there. *)
Definition removes_nothing {A} (c : M A) : Prop :=
  forall w, dom (fs w) ⊆ dom (fs (snd (c w))).

End Notions.

(** The status codes each operation can answer with. *)
Definition statuses (op : operation) : list Z :=
  match op with
  | SaveGeneratedImage _ _ => [200; 400; 500]
  | Delete _ _ => [200; 400; 404; 500]
  | _ => [200; 500]
  end.

(** A handler body all of whose responses satisfy [P]. *)
Definition answers (P : Response -> Prop) (c : M Response) : Prop :=
  forall w, match c w with
            | (Ret r, _) => P r
            | (Throw _, _) => True
            end.

(** A response with a JSON body and a status among [allowed]. *)
Definition json_with (allowed : list Z) (r : Response) : Prop :=
  status r ∈ allowed /\ exists j, body r = Json j.


(** Every character is one [\w] matches. *)
Fixpoint all_word (s : string) : bool :=
  match s with
  | EmptyString => true
  | String c rest => is_word c && all_word rest
  end.

End Persistence.

(** ** The client's view of a response *)

Module Client.

(** What [fetch] resolves to, as far as the client looks at it:
    [response.status], [response.statusText], and what [response.json()]
    gives: the parsed body, or a rejection with the parser's message. *)
Inductive Payload : Type :=
| JsonBody (j : json)
| NotJson (reason : string).

Record HttpResponse : Type := {
  http_status : Z;
  statusText : string;
  payload : Payload
}.

(** [response.ok] *)
Definition ok (response : HttpResponse) : bool :=
  (200 <=? http_status response) && (http_status response <=? 299).

(** The message of an [Error]: a string, or [String(v)] for the
    non-string value [v] it was built from. *)
Inductive Message : Type :=
| Text (s : string)
| StringOf (v : json).

Definition as_message (v : json) : Message :=
  match v with
  | JStr s => Text s
  | _ => StringOf v
  end.

Record ApiError : Type := { message : Message; status : Z; code : json }.

Definition isRateLimit (e : ApiError) : bool := status e =? 429.
Definition isUnavailable (e : ApiError) : bool := status e =? 503.
Definition isAuthError (e : ApiError) : bool := (status e =? 403) || (status e =? 401).

(** The values the client's calls throw and [getUserErrorMessage]
    tells apart. *)
Inductive Thrown : Type :=
| AnApiError (e : ApiError)
| ATypeError (m : string)
| AnError (m : string)
| NoError.

Inductive Result : Type :=
| Returned (j : json)
| Threw (t : Thrown).

(** [body[k]] of a parsed body that is not [null]. *)
Definition field (body : json) (k : string) : option json :=
  match body with
  | JObj o => obj_get k o
  | _ => None
  end.

Definition handleResponse (response : HttpResponse) (fallbackMsg : string) : Result :=
  if negb (ok response) then
    let with_status :=
      Text (fallbackMsg ++ " (" ++ dec (http_status response) ++ " "
            ++ statusText response ++ ")") in
    let '(message, code) :=
      match payload response with
      | JsonBody JNull | NotJson _ => (with_status, JStr "UNKNOWN")
      | JsonBody body =>
          (match field body "error" with
           | Some v => if truthy (Some v) then as_message v else Text fallbackMsg
           | None => Text fallbackMsg
           end,
           match field body "code" with
           | Some v => if truthy (Some v) then v else JStr "UNKNOWN"
           | None => JStr "UNKNOWN"
           end)
      end in
    Threw (AnApiError {| message := message; status := http_status response;
                         code := code |})
  else
    match payload response with
    | JsonBody body => Returned body
    | NotJson reason => Threw (AnError reason)
    end.

Definition getUserErrorMessage (error : Thrown) : Message :=
  match error with
  | AnApiError e => message e
  | ATypeError m =>
      if includes "fetch" m
      then Text "Não foi possível conectar ao servidor. Verifique se o backend está rodando."
      else Text m
  | AnError m => Text m
  | NoError => Text "Ocorreu um erro inesperado. Tente novamente."
  end.

(** The persistence calls:
    [if (!response.ok) throw new Error(failure); return await response.json()] *)
Definition unless_ok (response : HttpResponse) (failure : string) : Result :=
  if negb (ok response) then Threw (AnError failure)
  else match payload response with
       | JsonBody body => Returned body
       | NotJson reason => Threw (AnError reason)
       end.

(** The failure text of the client call for each operation. *)
Definition failure_text (op : Persistence.operation) : string :=
  match op with
  | Persistence.SaveGeneratedImage _ _ => "Failed to save generated image"
  | Persistence.SaveVision _ _ _ _ => "Failed to save vision analysis"
  | Persistence.UpsertChat _ _ => "Failed to save chat session"
  | Persistence.SaveSustainability _ _ _ => "Failed to save sustainability report"
  | Persistence.SaveDashboard _ _ _ _ => "Failed to save dashboard snapshot"
  | Persistence.Delete _ _ => "Failed to delete entry"
  end.

(** An answer sent with [res.status(st).json(body)] as [fetch] hands it to
    the client: the status sent, and the JSON body read back. *)
Definition over_http (st : Z) (body : json) (statusText : string) : HttpResponse :=
  {| http_status := st; statusText := statusText; payload := JsonBody body |}.

End Client.

(** ** The gateway's routes *)

Module Assistant.
Import Gateway.

Definition textModel : string := "gemini-3-flash-preview".
Definition textModelFallback : string := "gemini-3.1-pro-preview".

(** What the handlers read of the model's reply: [response.candidates]
    and [response.text]. *)
Record AiResponse : Type := {
  candidates : option (list json);
  text : option string
}.

Inductive Attempt : Type :=
| Replied (response : AiResponse)
| Failed (error : GeminiError).

(** One call of [ai.models.generateContent]: the model, the text part, the
    [inlineData.data] of the image part when the contents have one, and
    the config, which is [{ responseMimeType: 'application/json' }] in
    every call of [generateText]. *)
Record Request : Type := {
  model : string;
  prompt : string;
  inlineData : option (option string)
}.

Record Reply : Type := { status : Z; body : json }.

(** [res.json(body)] *)
Definition json_reply (body : json) : Reply := {| status := 200; body := body |}.

Definition handled (endpoint : string) (error : GeminiError) : Reply :=
  {| status := res_status (handleGeminiError endpoint error);
     body := res_json (handleGeminiError endpoint error) |}.

(** [x || y] for a string or [undefined]. *)
Definition text_or (x : option string) (y : string) : string :=
  match x with
  | Some s => if String.eqb s "" then y else s
  | None => y
  end.

(** [parsed[k] || y] for a parsed value that is not [null]. *)
Definition prop_or (parsed : json) (k : string) (y : json) : json :=
  match parsed with
  | JObj o => match obj_get k o with
              | Some v => if truthy (Some v) then v else y
              | None => y
              end
  | _ => y
  end.

(** [s.split(sep)] for a one-character separator. *)
Fixpoint split_on (sep : ascii) (s : string) : list string :=
  match s with
  | EmptyString => [EmptyString]
  | String c rest =>
      if Ascii.eqb c sep then EmptyString :: split_on sep rest
      else match split_on sep rest with
           | seg :: segs => String c seg :: segs
           | [] => [String c EmptyString]
           end
  end.

(** An exception raised inside a handler, as [handleGeminiError] sees
    it. *)
Definition type_error (m : string) : GeminiError :=
  {| err_message := Some m; err_String := "TypeError: " ++ m;
     err_status := None; err_statusCode := None;
     err_httpStatusCode := None; err_code := None |}.

Definition system_error (code m : string) : GeminiError :=
  {| err_message := Some m; err_String := "Error: " ++ m;
     err_status := None; err_statusCode := None;
     err_httpStatusCode := None; err_code := Some (JStr code) |}.

Definition bad_request (m : string) : Reply :=
  {| status := 400; body := JObj [("error", JStr m); ("code", JStr "BAD_REQUEST")] |}.

Definition no_candidates : string :=
  "A IA não conseguiu analisar a imagem. Verifique se a imagem é clara ou se houve um bloqueio de segurança.".

Section Routes.

(** The remote model, [JSON.parse] ([None] when it throws), and the prompt
    texts, fixed templates around the request's fields. *)
Variable generateContent : Request -> Attempt.
Variable JSON_parse : string -> option json.
Variable insights_prompt : option json -> option json -> string.

(** [generateText(contents, config)], with the calls it makes. *)
Definition generateText (prompt : string) (inlineData : option (option string))
  : Attempt * list Request :=
  let primary := {| model := textModel; prompt := prompt; inlineData := inlineData |} in
  match generateContent primary with
  | Replied response => (Replied response, [primary])
  | Failed _ =>
      let fallback :=
        {| model := textModelFallback; prompt := prompt; inlineData := inlineData |} in
      (generateContent fallback, [primary; fallback])
  end.

(** [POST /api/store-insights] *)
Definition store_insights (query context : option json) : Reply * list Request :=
  let '(attempt, calls) := generateText (insights_prompt context query) None in
  match attempt with
  | Failed error => (handled "store-insights" error, calls)
  | Replied response =>
      (match JSON_parse (text_or (text response) "{}") with
       | Some JNull | None =>
           json_reply (JObj [("text", JStr (text_or (text response) ""));
                             ("charts", JArr [])])
       | Some parsed =>
           json_reply (JObj [("text", prop_or parsed "text" (JStr ""));
                             ("charts", prop_or parsed "charts" (JArr []))])
       end, calls)
  end.

(** The disk, [Buffer.toString('base64')], the bytes of a store file,
    and the prompt of the analysis around the request's [task]. *)
Variable rt : Persistence.Runtime.
Variable Buffer_to_base64 : list Byte.byte -> string.
Variable JSON_text : obj -> list Byte.byte.
Variable analyze_prompt : option json -> string.

(** [fs.readFileSync(p)] of a regular file. *)
Definition file_bytes (f : Persistence.file) : list Byte.byte :=
  match f with
  | Persistence.Blob bytes => bytes
  | Persistence.StoreDoc d => JSON_text d
  end.

(** The first block of the handler: the base64 data to send, or the
    response that ends the request. *)
Definition resolve_image (w : Persistence.World) (imageData : string)
  : Reply + option string :=
  match strip_prefix "data:" imageData with
  | Some _ => inr (split_on "," imageData !! 1%nat)
  | None =>
      match strip_prefix "/api/data/images/" imageData with
      | Some filename =>
          let filePath := Persistence.path_join (Persistence.IMAGES_DIR rt) filename in
          match Persistence.fs w !! filePath with
          | Some f => inr (Some (Buffer_to_base64 (file_bytes f)))
          | None =>
              if Persistence.is_directory rt w (Persistence.drop_slash filePath)
              then inl (handled "analyze-image"
                          (system_error "EISDIR"
                             "EISDIR: illegal operation on a directory, read"))
              else inl (bad_request "Imagem não encontrada no servidor.")
          end
      | None => inl (bad_request "Formato de imagem não reconhecido.")
      end
  end.

(** [POST /api/analyze-image]; [imageData] is a string when the request
    has one. *)
Definition analyze_image (w : Persistence.World) (imageData : option string)
    (task : option json) : Reply * list Request :=
  match imageData with
  | None =>
      (handled "analyze-image"
         (type_error "Cannot read properties of undefined (reading 'startsWith')"), [])
  | Some data =>
      match resolve_image w data with
      | inl reply => (reply, [])
      | inr base64Data =>
          let '(attempt, calls) := generateText (analyze_prompt task) (Some base64Data) in
          match attempt with
          | Failed error => (handled "analyze-image" error, calls)
          | Replied response =>
              (match candidates response with
               | None | Some [] =>
                   json_reply (JObj [("summary", JStr no_candidates); ("charts", JArr [])])
               | Some _ =>
                   match JSON_parse (text_or (text response) "{}") with
                   | Some (JObj parsed) =>
                       json_reply (JObj (if negb (truthy (obj_get "charts" parsed))
                                         then obj_set "charts" (JArr []) parsed
                                         else parsed))
                   | Some (JArr items) => json_reply (JArr items)
                   | _ =>
                       json_reply (JObj [("summary",
                                          JStr "Erro ao processar a resposta da IA.");
                                         ("charts", JArr [])])
                   end
               end, calls)
          end
      end
  end.

End Routes.

(** *** A concrete remote model and runtime, for examples *)

Definition encode_sextet (n : N) : ascii :=
  if (n <? 26)%N then ascii_of_N (n + 65)
  else if (n <? 52)%N then ascii_of_N (n + 71)
  else if (n <? 62)%N then ascii_of_N (n - 4)
  else if (n =? 62)%N then "+"%char
  else "/"%char.

(** Base64 with padding. *)
Fixpoint base64_encode (bytes : list Byte.byte) : string :=
  match bytes with
  | a :: b :: c :: rest =>
      let '(a, b, c) := (Byte.to_N a, Byte.to_N b, Byte.to_N c) in
      String (encode_sextet (a / 4))
        (String (encode_sextet ((a mod 4) * 16 + b / 16))
           (String (encode_sextet ((b mod 16) * 4 + c / 64))
              (String (encode_sextet (c mod 64)) (base64_encode rest))))
  | [a; b] =>
      let '(a, b) := (Byte.to_N a, Byte.to_N b) in
      String (encode_sextet (a / 4))
        (String (encode_sextet ((a mod 4) * 16 + b / 16))
           (String (encode_sextet ((b mod 16) * 4)) "="))
  | [a] =>
      let a := Byte.to_N a in
      String (encode_sextet (a / 4)) (String (encode_sextet ((a mod 4) * 16)) "==")
  | [] => ""
  end.

(** A remote model whose primary text model is rate-limited and whose
    fallback replies with one candidate and an empty JSON object. *)
Definition busy_primary (request : Request) : Attempt :=
  if String.eqb (model request) textModel
  then Failed {| err_message := Some "Too many requests"; err_String := "";
                 err_status := Some (JNum 429); err_statusCode := None;
                 err_httpStatusCode := None; err_code := None |}
  else Replied {| candidates := Some [JObj []]; text := Some "{}" |}.

(** A remote model that is down. *)
Definition down (request : Request) : Attempt :=
  Failed (plain_error ("503 UNAVAILABLE " ++ model request)).

(** A parser that knows the empty object only. *)
Definition parse_empty_object (s : string) : option json :=
  if String.eqb s "{}" then Some (JObj []) else None.

Definition ask (context query : option json) : string := "context and query".
Definition look (task : option json) : string := "task".
Definition no_text (d : obj) : list Byte.byte := [].

End Assistant.

(** * Properties of the gateway *)

Module GatewayFacts.
Import Gateway.

Example classify_status_first :
  parseGeminiError
    {| err_message := Some "503 UNAVAILABLE"; err_String := "";
       err_status := Some (JNum 429); err_statusCode := None;
       err_httpStatusCode := None; err_code := None |}
  = {| status := 429; message := msg_rate_limited; code := "RATE_LIMITED" |}.
Proof. reflexivity. Qed.

Example classify_code_property :
  status (parseGeminiError
    {| err_message := None; err_String := "[object Object]";
       err_status := None; err_statusCode := Some (JNum 0);
       err_httpStatusCode := None; err_code := Some (JNum 401) |}) = 403.
Proof. reflexivity. Qed.

Example classify_string_status :
  code (parseGeminiError
    {| err_message := Some "failed"; err_String := "";
       err_status := Some (JStr "rate"); err_statusCode := Some (JNum 429);
       err_httpStatusCode := None; err_code := None |}) = "INTERNAL_ERROR".
Proof. reflexivity. Qed.

Lemma class_code_inj (c c' : ErrorClass) : class_code c = class_code c' -> c = c'.
Proof. destruct c, c'; simpl; intros H; solve [reflexivity | discriminate H]. Qed.

Lemma parse_classify (error : GeminiError) :
  code (parseGeminiError error) = class_code (classify error)
  /\ status (parseGeminiError error) = class_status (classify error).
Proof.
  unfold parseGeminiError, classify, rate_limit_trigger, unavailable_trigger,
    bad_request_trigger, auth_trigger.
  destruct (_ || includes "quota" _); [split; reflexivity |].
  destruct (_ || includes "UNAVAILABLE" _); [split; reflexivity |].
  destruct (_ || includes "SAFETY" _); [split; reflexivity |].
  destruct (_ || includes "UNAUTHENTICATED" _); split; reflexivity.
Qed.

Lemma parse_message (error : GeminiError) :
  message (parseGeminiError error)
  = match classify error with
    | RateLimited => msg_rate_limited
    | ServiceUnavailable => msg_unavailable
    | BadRequest => msg_bad_request
    | AuthError => msg_auth
    | InternalError => msg_internal_prefix ++ msg_of error
    end.
Proof.
  unfold parseGeminiError, classify, rate_limit_trigger, unavailable_trigger,
    bad_request_trigger, auth_trigger.
  destruct (_ || includes "quota" _); [reflexivity |].
  destruct (_ || includes "UNAVAILABLE" _); [reflexivity |].
  destruct (_ || includes "SAFETY" _); [reflexivity |].
  destruct (_ || includes "UNAUTHENTICATED" _); reflexivity.
Qed.

Lemma includes_app_r (needle pre : string) :
  includes needle (pre ++ needle) = true.
Proof.
  assert (Hself : forall n, strip_prefix n n = Some "").
  { induction n as [|a n IH]; simpl; [reflexivity |].
    rewrite Ascii.eqb_refl. exact IH. }
  induction pre as [|a pre IH]; simpl.
  - destruct needle as [|b n]; simpl; [reflexivity |].
    rewrite Ascii.eqb_refl, Hself. reflexivity.
  - destruct (strip_prefix needle (String a (pre ++ needle))); [reflexivity |].
    exact IH.
Qed.

(** C1, as the code has it: the caller receives the class's code and a
    message that for the four named classes is the fixed text of the class,
    whatever the upstream error says, and for the internal-error class is
    the fixed prefix followed by the upstream error text; the upstream text
    is also what goes to the server's console. *)
Theorem C1_message_per_class (endpoint : string) (error : GeminiError) :
  let parsed := parseGeminiError error in
  res_json (handleGeminiError endpoint error)
    = JObj [("error", JStr (message parsed)); ("code", JStr (code parsed))]
  /\ res_status (handleGeminiError endpoint error) = status parsed
  /\ snd (logged (handleGeminiError endpoint error)) = msg_of error
  /\ ((code parsed = "RATE_LIMITED" /\ message parsed = msg_rate_limited)
      \/ (code parsed = "SERVICE_UNAVAILABLE" /\ message parsed = msg_unavailable)
      \/ (code parsed = "BAD_REQUEST" /\ message parsed = msg_bad_request)
      \/ (code parsed = "AUTH_ERROR" /\ message parsed = msg_auth)
      \/ (code parsed = "INTERNAL_ERROR"
          /\ message parsed = msg_internal_prefix ++ msg_of error
          /\ includes (msg_of error) (response_text (handleGeminiError endpoint error))
             = true)).
Proof.
  intros parsed. subst parsed.
  repeat split.
  unfold response_text. simpl.
  destruct (parse_classify error) as [Hc _].
  rewrite Hc, parse_message.
  destruct (classify error); simpl; auto 10 using includes_app_r.
  do 4 right. repeat split. apply (includes_app_r (msg_of error) msg_internal_prefix).
Qed.

(** C1 as stated fails: an error of the internal-error class reaches the
    caller with its own text inside the message. *)
Lemma C1_upstream_text_reaches_caller :
  code (parseGeminiError (plain_error "boom")) = "INTERNAL_ERROR"
  /\ response_text (handleGeminiError "generate-image" (plain_error "boom"))
     = "Erro interno ao chamar a API Gemini: boom"
  /\ includes "boom"
       (response_text (handleGeminiError "generate-image" (plain_error "boom")))
     = true
  /\ ~ (forall error : GeminiError,
         code (parseGeminiError error) = "INTERNAL_ERROR" ->
         includes (msg_of error)
           (response_text (handleGeminiError "generate-image" error)) = false).
Proof.
  repeat split.
  intros H. specialize (H (plain_error "boom") eq_refl). discriminate H.
Qed.

(** C3, as the code has it: every error falls into exactly one class, the
    first in the order rate-limited, service-unavailable, bad-request,
    auth-error whose trigger fires (with ['rate limit'] and ['quota']
    searched without regard to letter case, and ['UNAUTHENTICATED'] among
    the authentication triggers), else internal-error; the class fixes the
    returned status 429, 503, 400, 403, 500. *)
Theorem C3_classification (error : GeminiError) :
  (forall c : ErrorClass,
     code (parseGeminiError error) = class_code c <-> c = classify error)
  /\ status (parseGeminiError error) = class_status (classify error)
  /\ (classify error = RateLimited <-> rate_limit_trigger error = true)
  /\ (classify error = ServiceUnavailable <->
        rate_limit_trigger error = false /\ unavailable_trigger error = true)
  /\ (classify error = BadRequest <->
        rate_limit_trigger error = false /\ unavailable_trigger error = false
        /\ bad_request_trigger error = true)
  /\ (classify error = AuthError <->
        rate_limit_trigger error = false /\ unavailable_trigger error = false
        /\ bad_request_trigger error = false /\ auth_trigger error = true)
  /\ (classify error = InternalError <->
        rate_limit_trigger error = false /\ unavailable_trigger error = false
        /\ bad_request_trigger error = false /\ auth_trigger error = false).
Proof.
  destruct (parse_classify error) as [Hc Hs].
  split; [| split; [exact Hs |]].
  - intros c. rewrite Hc. split.
    + intros H. symmetry. exact (class_code_inj _ _ H).
    + intros ->. reflexivity.
  - unfold classify.
    destruct (rate_limit_trigger error), (unavailable_trigger error),
      (bad_request_trigger error), (auth_trigger error);
      repeat split; intros; try reflexivity; try discriminate;
      repeat match goal with H : _ /\ _ |- _ => destruct H end; discriminate.
Qed.

(** C3 as stated fails on the listed triggers: a message that only says
    [UNAUTHENTICATED] is an auth-error (403), and a message naming the
    quota with a capital letter is rate-limited (429), while the listed
    triggers send both to internal-error. *)
Lemma C3_listed_triggers_differ :
  (parseGeminiError (plain_error "UNAUTHENTICATED")
     = {| status := 403; message := msg_auth; code := "AUTH_ERROR" |}
   /\ listed_classify (plain_error "UNAUTHENTICATED") = InternalError)
  /\ (parseGeminiError (plain_error "Quota exceeded")
       = {| status := 429; message := msg_rate_limited; code := "RATE_LIMITED" |}
     /\ listed_classify (plain_error "Quota exceeded") = InternalError)
  /\ ~ (forall error : GeminiError,
         code (parseGeminiError error) = class_code (listed_classify error)).
Proof.
  repeat split.
  intros H. specialize (H (plain_error "UNAUTHENTICATED")). discriminate H.
Qed.

End GatewayFacts.

(** * Properties of the persistence store *)

Module PersistenceFacts.
Import Persistence.

(** ** Running a handler step by step *)

Lemma bind_ok {A B} (c : M A) (k : A -> M B) (w w' : World) (a : A) :
  c w = (Ret a, w') -> bind c k w = k a w'.
Proof. intros H. unfold bind. rewrite H. reflexivity. Qed.

Lemma bind_throw {A B} (c : M A) (k : A -> M B) (w w' : World) (e : exn) :
  c w = (Throw e, w') -> bind c k w = (Throw e, w').
Proof. intros H. unfold bind. rewrite H. reflexivity. Qed.

(** Replace the first [bind c k w] by [k a w'], where [tac] shows that [c]
    returns [a] in [w']. *)
Ltac step_with tac :=
  match goal with
  | |- context [bind ?c ?k ?w] => erewrite (bind_ok c k w); [| solve [tac]]
  end; cbv zeta; unfold with_fs, made; cbn [fs dirs_made ticks draws].

Ltac step := step_with ltac:(reflexivity).

Lemma as_array_get (key method : string) (store : obj) (items : list json) :
  obj_get key store = Some (JArr items) -> as_array key method store = Ret items.
Proof. intros H. unfold as_array. rewrite H. reflexivity. Qed.

Lemma unshift_get (key : string) (entry store : obj) (items : list json) :
  obj_get key store = Some (JArr items) ->
  unshift key entry store = Ret (obj_set key (JArr (JObj entry :: items)) store).
Proof. intros H. unfold unshift. rewrite (as_array_get _ _ _ _ H). reflexivity. Qed.

(** ** Objects *)

Lemma obj_get_set_eq (k : string) (v : json) (o : obj) :
  obj_get k (obj_set k v o) = Some v.
Proof.
  induction o as [|[k' v'] o IH]; simpl.
  - rewrite String.eqb_refl. reflexivity.
  - destruct (String.eqb k k') eqn:E; simpl.
    + rewrite String.eqb_refl. reflexivity.
    + rewrite E. exact IH.
Qed.

Lemma obj_get_set_ne (k k' : string) (v : json) (o : obj) :
  k <> k' -> obj_get k (obj_set k' v o) = obj_get k o.
Proof.
  intros Hne. induction o as [|[k0 v0] o IH]; simpl.
  - destruct (String.eqb k k') eqn:E; [| reflexivity].
    apply String.eqb_eq in E. contradiction.
  - destruct (String.eqb k' k0) eqn:E'; simpl.
    + apply String.eqb_eq in E'. subst k0.
      destruct (String.eqb k k') eqn:E; [| reflexivity].
      apply String.eqb_eq in E. contradiction.
    + destruct (String.eqb k k0); [reflexivity | exact IH].
Qed.

Lemma obj_set_absent (k : string) (v : json) (o : obj) :
  obj_get k o = None -> obj_set k v o = (o ++ [(k, v)])%list.
Proof.
  induction o as [|[k' v'] o IH]; simpl; [reflexivity |].
  destruct (String.eqb k k'); [discriminate |].
  intros H. rewrite (IH H). reflexivity.
Qed.

Lemma obj_set_set (k : string) (v v' : json) (o : obj) :
  obj_set k v' (obj_set k v o) = obj_set k v' o.
Proof.
  induction o as [|[k0 v0] o IH]; simpl.
  - rewrite String.eqb_refl. reflexivity.
  - destruct (String.eqb k k0) eqn:E; simpl.
    + rewrite String.eqb_refl. reflexivity.
    + rewrite E, IH. reflexivity.
Qed.

(** ** Loading *)

Lemma migrated_other (k : string) (d : obj) :
  k <> "generatedImages" -> obj_get k (migrated d) = obj_get k d.
Proof.
  intros Hne. unfold migrated.
  destruct (negb _); [apply obj_get_set_ne; exact Hne | reflexivity].
Qed.

Lemma migrated_array (k : string) (items : list json) (d : obj) :
  obj_get k d = Some (JArr items) -> obj_get k (migrated d) = Some (JArr items).
Proof.
  intros H. unfold migrated.
  destruct (String.eqb k "generatedImages") eqn:E.
  - apply String.eqb_eq in E. subst k. rewrite H. simpl. exact H.
  - apply String.eqb_neq in E.
    destruct (negb _); [rewrite obj_get_set_ne by exact E |]; exact H.
Qed.

Lemma migrated_idem (d : obj) : migrated (migrated d) = migrated d.
Proof.
  unfold migrated.
  destruct (negb (truthy (obj_get "generatedImages" d))) eqn:E.
  - rewrite obj_get_set_eq. reflexivity.
  - rewrite E. reflexivity.
Qed.

Section Loading.

Variable rt : Runtime.

Lemma readStore_present (w : World) (d : obj) :
  fs w !! STORE_FILE rt = Some (StoreDoc d) ->
  readStore rt w = (Ret (migrated d), made w).
Proof.
  intros H. unfold readStore, bind, ensureDataDir. simpl. rewrite H. reflexivity.
Qed.

Lemma readStore_absent (w : World) :
  fs w !! STORE_FILE rt = None ->
  readStore rt w
  = (Ret empty, with_fs (<[STORE_FILE rt := StoreDoc empty]> (fs w)) (made w)).
Proof.
  intros H. unfold readStore, bind, ensureDataDir. simpl. rewrite H. reflexivity.
Qed.

Lemma readStore_blob (w : World) (bytes : list Byte.byte) :
  fs w !! STORE_FILE rt = Some (Blob bytes) ->
  readStore rt w = (Throw (SyntaxError "Unexpected token in JSON"), made w).
Proof.
  intros H. unfold readStore, bind, ensureDataDir. simpl. rewrite H. reflexivity.
Qed.

Lemma get_data_present (w : World) (d : obj) :
  fs w !! STORE_FILE rt = Some (StoreDoc d) ->
  get_data rt w = (json_ok (JObj (migrated d)), made w).
Proof.
  intros H. unfold get_data, try_catch, bind. rewrite (readStore_present w d H).
  reflexivity.
Qed.

End Loading.

(** C2, as the code has it: a stored document without [generatedImages]
    is returned with [generatedImages] as an empty array added after its
    other properties, which are returned as stored; nothing is raised and
    no file changes.  The other four collection keys are not injected. *)
Theorem C2_load_injects_generatedImages (rt : Runtime) (w : World) (d : obj) :
  fs w !! STORE_FILE rt = Some (StoreDoc d) ->
  obj_get "generatedImages" d = None ->
  fst (get_data rt w) = json_ok (JObj (d ++ [("generatedImages", JArr [])])%list)
  /\ fst (readStore rt w) = Ret (d ++ [("generatedImages", JArr [])])%list
  /\ obj_get "generatedImages" (d ++ [("generatedImages", JArr [])])%list
     = Some (JArr [])
  /\ fs (snd (get_data rt w)) = fs w.
Proof.
  intros Hfile Hmiss.
  assert (Hm : migrated d = (d ++ [("generatedImages", JArr [])])%list).
  { unfold migrated. rewrite Hmiss. simpl. apply obj_set_absent. exact Hmiss. }
  rewrite (get_data_present rt w d Hfile), (readStore_present rt w d Hfile), Hm.
  repeat split.
  rewrite <- Hm. unfold migrated. rewrite Hmiss. simpl. apply obj_get_set_eq.
Qed.

Lemma C2_load_injects_generatedImages_witness :
  fs w_old !! STORE_FILE rt0 = Some (StoreDoc old_doc)
  /\ obj_get "generatedImages" old_doc = None
  /\ fst (get_data rt0 w_old)
     = json_ok (JObj [("version", JNum 1); ("chatSessions", JArr []);
                      ("generatedImages", JArr [])])
  /\ fs (snd (get_data rt0 w_old)) = fs w_old.
Proof.
  assert (Hfile : fs w_old !! STORE_FILE rt0 = Some (StoreDoc old_doc))
    by (vm_compute; reflexivity).
  assert (Hmiss : obj_get "generatedImages" old_doc = None) by reflexivity.
  destruct (C2_load_injects_generatedImages rt0 w_old old_doc Hfile Hmiss)
    as (Hres & _ & _ & Hfs).
  split; [exact Hfile |]. split; [exact Hmiss |]. split; [exact Hres | exact Hfs].
Defined.

(** C2 as stated fails: a stored document without [visionAnalyses] is
    returned without it, and saving an analysis into it is refused. *)
Lemma C2_other_keys_not_injected :
  fst (get_data rt0 w_old)
  = json_ok (JObj [("version", JNum 1); ("chatSessions", JArr []);
                   ("generatedImages", JArr [])])
  /\ obj_get "visionAnalyses" old_doc = None
  /\ (exists store, fst (readStore rt0 w_old) = Ret store
                    /\ obj_get "visionAnalyses" store = None
                    /\ obj_get "sustainabilityReports" store = None
                    /\ obj_get "dashboardSnapshots" store = None)
  /\ status (fst (post_vision rt0 None None None None w_old)) = 500.
Proof.
  split; [vm_compute; reflexivity |].
  split; [reflexivity |].
  split; [| vm_compute; reflexivity].
  eexists. split; [vm_compute; reflexivity |]. repeat split.
Qed.
(** ** Paths and generated file names *)

Lemma includes_slash_cons (c : ascii) (s : string) :
  includes "/" (String c s) = Ascii.eqb c "/" || includes "/" s.
Proof.
  cbn [includes strip_prefix]. rewrite (Ascii.eqb_sym "/" c).
  destruct (Ascii.eqb c "/"); destruct s; reflexivity.
Qed.

Lemma includes_slash_app (s t : string) :
  includes "/" (s ++ t) = includes "/" s || includes "/" t.
Proof.
  induction s as [|c s IH].
  - reflexivity.
  - change (String c s ++ t) with (String c (s ++ t)).
    rewrite !includes_slash_cons, IH. apply orb_assoc.
Qed.

Lemma split_slash_plain (name : string) :
  includes "/" name = false -> split_slash name = [name].
Proof.
  induction name as [|c name IH]; [reflexivity |].
  rewrite includes_slash_cons. intros H. apply orb_false_iff in H as [Hc Hrest].
  cbn [split_slash]. rewrite Hc, (IH Hrest). reflexivity.
Qed.

Lemma path_join_plain (dir : path) (name : string) :
  is_plain name = true -> path_join dir name = (dir ++ [name])%list.
Proof.
  unfold is_plain. intros H.
  apply andb_true_iff in H as [H Hdd]. apply andb_true_iff in H as [H Hd].
  apply andb_true_iff in H as [Hs He].
  apply negb_true_iff in Hs, He, Hd, Hdd.
  unfold path_join, ends_with_slash. rewrite (split_slash_plain name Hs). simpl.
  unfold join_step. rewrite He, Hd, Hdd. reflexivity.
Qed.

Lemma uint_no_slash (d : Decimal.uint) :
  includes "/" (NilEmpty.string_of_uint d) = false.
Proof. induction d; simpl; try reflexivity; exact IHd. Qed.

Lemma dec_no_slash (n : Z) : includes "/" (dec n) = false.
Proof.
  unfold dec, NilZero.string_of_int, NilZero.string_of_uint.
  destruct (Z.to_int n) as [d | d]; destruct d; try reflexivity;
    try apply (uint_no_slash (Decimal.D0 d));
    rewrite ?includes_slash_cons; simpl Ascii.eqb; simpl orb;
    solve [ apply uint_no_slash
          | match goal with
            | |- includes "/" (NilEmpty.string_of_uint ?u) = false => apply uint_no_slash
            end ].
Qed.

Lemma digit36_no_slash (d : nat) : Ascii.eqb (digit36 d) "/" = false.
Proof.
  unfold digit36.
  assert (Hlt : (d mod 36 < 36)%nat) by (apply Nat.mod_upper_bound; discriminate).
  destruct (d mod 36)%nat as [|k]; [reflexivity |].
  do 35 (destruct k as [|k]; [reflexivity |]).
  exfalso. lia.
Qed.

Lemma suffix36_no_slash (digits : list nat) : includes "/" (suffix36 digits) = false.
Proof.
  unfold suffix36. induction (take 4 digits) as [|d l IH]; [reflexivity |].
  simpl map. simpl string_of_list_ascii.
  rewrite includes_slash_cons, digit36_no_slash, IH. reflexivity.
Qed.

Lemma gen_name_plain (t : Z) (digits : list nat) :
  is_plain ("gen_" ++ dec t ++ "_" ++ suffix36 digits ++ ".png") = true.
Proof.
  unfold is_plain.
  rewrite !includes_slash_app, dec_no_slash, suffix36_no_slash. reflexivity.
Qed.

Lemma img_name_plain (t : Z) : is_plain ("img_" ++ dec t ++ ".png") = true.
Proof.
  unfold is_plain. rewrite !includes_slash_app, dec_no_slash. reflexivity.
Qed.

Lemma image_not_store (rt : Runtime) (name : string) :
  (IMAGES_DIR rt ++ [name])%list <> STORE_FILE rt.
Proof.
  unfold IMAGES_DIR, STORE_FILE, DATA_DIR. intros H.
  apply (f_equal length) in H. rewrite !length_app in H. simpl in H. lia.
Qed.

(** ** Saving images *)


Lemma save_image_some (rt : Runtime) (imageData : option string) (payload : string)
    (mk_name : M string) (w w' : World) (name : string) :
  image_payload imageData = Some payload ->
  mk_name w = (Ret name, w') ->
  is_plain name = true ->
  save_image rt imageData mk_name w
  = (Ret (Some name),
     with_fs (<[(IMAGES_DIR rt ++ [name])%list := Blob (Buffer_from_base64 rt payload)]>
                (fs w')) w').
Proof.
  intros H Hname Hplain. destruct imageData as [data|]; [| discriminate H].
  simpl in H. unfold save_image. rewrite H.
  destruct (String.eqb data "") eqn:E.
  { apply String.eqb_eq in E. subst data. discriminate H. }
  cbn [negb]. rewrite (bind_ok _ _ _ _ _ Hname).
  rewrite (path_join_plain _ _ Hplain). reflexivity.
Qed.

Section SavingImages.

Variables (rt : Runtime) (w : World) (d : obj).
Hypothesis Hfile : fs w !! STORE_FILE rt = Some (StoreDoc d).


Lemma generated_image_saved (cameraName : option json) (imageData : option string)
    (payload : string) (items : list json) :
  obj_get "generatedImages" (migrated d) = Some (JArr items) ->
  image_payload imageData = Some payload ->
  let id := "genimg_" ++ dec (ms (clock rt (ticks w))) ++ "_"
            ++ suffix36 (random rt (draws w)) in
  let name := "gen_" ++ dec (ms (clock rt (S (ticks w)))) ++ "_"
              ++ suffix36 (random rt (S (draws w))) ++ ".png" in
  let entry := literal [("id", Some (JStr id)); ("cameraName", cameraName);
                        ("imageFile", Some (JStr name));
                        ("timestamp", Some (JStr (iso (clock rt (S (S (ticks w)))))))] in
  post_generated_image rt cameraName imageData w
  = (json_ok (JObj entry),
     after w (<[STORE_FILE rt := StoreDoc (obj_set "generatedImages"
                                             (JArr (JObj entry :: items)) (migrated d))]>
                (<[(IMAGES_DIR rt ++ [name])%list
                   := Blob (Buffer_from_base64 rt payload)]> (fs w))) 3 2).
Proof.
  intros Harr Hp id name entry.
  unfold post_generated_image, try_catch.
  step_with ltac:(apply readStore_present; exact Hfile).
  step. step.
  step_with ltac:(eapply save_image_some; [exact Hp | reflexivity | apply gen_name_plain]).
  step.
  step_with ltac:(unfold lift; rewrite (unshift_get _ _ _ _ Harr); reflexivity).
  reflexivity.
Qed.


Lemma vision_saved_with_image (cameraName : option json) (imageData : option string)
    (task result : option json) (payload : string) (items : list json) :
  obj_get "visionAnalyses" (migrated d) = Some (JArr items) ->
  image_payload imageData = Some payload ->
  let name := "img_" ++ dec (ms (clock rt (S (ticks w)))) ++ ".png" in
  let entry := literal [("id", Some (JStr ("vision_" ++ dec (ms (clock rt (ticks w))))));
                        ("cameraName", cameraName); ("imageFile", Some (JStr name));
                        ("task", task); ("result", result);
                        ("timestamp", Some (JStr (iso (clock rt (S (S (ticks w)))))))] in
  post_vision rt cameraName imageData task result w
  = (json_ok (JObj entry),
     after w (<[STORE_FILE rt := StoreDoc (obj_set "visionAnalyses"
                                             (JArr (JObj entry :: items)) (migrated d))]>
                (<[(IMAGES_DIR rt ++ [name])%list
                   := Blob (Buffer_from_base64 rt payload)]> (fs w))) 3 0).
Proof.
  intros Harr Hp name entry.
  unfold post_vision, try_catch.
  step_with ltac:(apply readStore_present; exact Hfile).
  step.
  step_with ltac:(eapply save_image_some; [exact Hp | reflexivity | apply img_name_plain]).
  step.
  step_with ltac:(unfold lift; rewrite (unshift_get _ _ _ _ Harr); reflexivity).
  reflexivity.
Qed.

End SavingImages.

Lemma literal_imageFile (id cameraName imageFile : option json)
    (rest : list (string * option json)) :
  obj_get "imageFile"
    (literal (("id", id) :: ("cameraName", cameraName) :: ("imageFile", imageFile) :: rest))
  = match imageFile with
    | Some v => Some v
    | None => obj_get "imageFile" (literal rest)
    end.
Proof. destruct id, cameraName, imageFile; reflexivity. Qed.





(** ** Deleting *)

Lemma findIndex_Some_obj (id : string) (arr : list json) (idx : nat) :
  findIndex (Some id) arr = Ret (Some idx) ->
  exists item, arr !! idx = Some (JObj item) /\ obj_get "id" item = Some (JStr id).
Proof.
  revert idx. induction arr as [|x arr IH]; intros idx H; [discriminate H |].
  cbn [findIndex] in H.
  destruct (get_prop x "id") as [v | e] eqn:Hv; [| discriminate H].
  destruct (strict_eq v (Some id)) eqn:Heq.
  - injection H as <-. destruct x; try discriminate Hv; simpl in Hv;
      injection Hv as <-; try discriminate Heq.
    exists fields. split; [reflexivity |].
    destruct (obj_get "id" fields) as [[]|]; try discriminate Heq.
    simpl in Heq. apply String.eqb_eq in Heq. subst. reflexivity.
  - destruct (findIndex (Some id) arr) as [[i|]|] eqn:Hrec; try discriminate H.
    injection H as <-. apply (IH i eq_refl).
Qed.

Lemma is_directory_image (rt : Runtime) (w : World) (name : string) :
  String.eqb name "" = false ->
  is_directory rt w (drop_slash (IMAGES_DIR rt ++ [name])%list) = false.
Proof.
  intros Hne. unfold drop_slash. rewrite last_snoc. rewrite Hne.
  unfold is_directory.
  rewrite !bool_decide_eq_false_2; [simpl; apply andb_false_r | | |].
  - unfold IMAGES_DIR. intros H. apply (f_equal length) in H.
    rewrite !length_app in H. simpl in H. lia.
  - unfold IMAGES_DIR, DATA_DIR. intros H. apply (f_equal length) in H.
    rewrite !length_app in H. simpl in H. lia.
  - unfold IMAGES_DIR, DATA_DIR. intros H. apply prefix_length in H.
    rewrite !length_app in H. simpl in H. lia.
Qed.

(** [if (fs.existsSync(imagePath)) fs.unlinkSync(imagePath)] for a plain
    file name: the file is gone afterwards, whether it was there or not. *)
Lemma unlink_image (rt : Runtime) (w : World) (name : string) :
  is_plain name = true ->
  bind (existsSync rt (path_join (IMAGES_DIR rt) name))
       (fun there =>
          if there then unlinkSync rt (path_join (IMAGES_DIR rt) name) else ret tt) w
  = (Ret tt, with_fs (delete (IMAGES_DIR rt ++ [name])%list (fs w)) w).
Proof.
  intros Hplain. rewrite (path_join_plain _ _ Hplain).
  assert (Hne : String.eqb name "" = false).
  { unfold is_plain in Hplain. destruct (String.eqb name ""); [| reflexivity].
    rewrite andb_false_r in Hplain. discriminate Hplain. }
  unfold bind, existsSync, unlinkSync.
  destruct (fs w !! (IMAGES_DIR rt ++ [name])%list) eqn:Hl.
  - rewrite Hl. reflexivity.
  - rewrite (is_directory_image rt w name Hne). unfold ret, with_fs.
    rewrite delete_id by exact Hl. destruct w; reflexivity.
Qed.

Section Deleting.

Variables (rt : Runtime) (w : World) (d : obj).
Variables (collection key : string) (arr : list json) (id : string).
Hypothesis Hfile : fs w !! STORE_FILE rt = Some (StoreDoc d).
Hypothesis Hkey : collectionMap collection = Some key.
Hypothesis Harr : obj_get key (migrated d) = Some (JArr arr).

Lemma delete_not_found :
  findIndex (Some id) arr = Ret None ->
  delete_entry rt collection id w
  = (json_error 404 "Entry not found", after w (fs w) 0 0).
Proof.
  intros Hfind. unfold delete_entry, try_catch.
  step_with ltac:(apply readStore_present; exact Hfile).
  rewrite Hkey.
  step_with ltac:(unfold lift; rewrite (as_array_get _ _ _ _ Harr); reflexivity).
  step_with ltac:(unfold lift; rewrite Hfind; reflexivity).
  reflexivity.
Qed.

Lemma delete_existing (idx : nat) (item : obj) :
  findIndex (Some id) arr = Ret (Some idx) ->
  arr !! idx = Some (JObj item) ->
  image_file_ok key item = true ->
  delete_entry rt collection id w
  = (json_ok (JObj [("success", JBool true)]),
     after w (<[STORE_FILE rt
                := StoreDoc (obj_set key (JArr (splice1 idx arr)) (migrated d))]>
                (match owned_image key item with
                 | Some name => delete (IMAGES_DIR rt ++ [name])%list (fs w)
                 | None => fs w
                 end)) 0 0).
Proof.
  intros Hfind Hitem Hok.
  unfold delete_entry, try_catch.
  step_with ltac:(apply readStore_present; exact Hfile).
  rewrite Hkey.
  step_with ltac:(unfold lift; rewrite (as_array_get _ _ _ _ Harr); reflexivity).
  step_with ltac:(unfold lift; rewrite Hfind; reflexivity).
  unfold image_file_ok, owned_image in *.
  destruct (String.eqb key "visionAnalyses" || String.eqb key "generatedImages").
  - rewrite Hitem.
    destruct (obj_get "imageFile" item) as [v|] eqn:Himg.
    + destruct v as [| b | n | name | l | o]; try discriminate Hok.
      * step_with ltac:(unfold lift; simpl; rewrite Himg; reflexivity).
        step. reflexivity.
      * destruct (String.eqb name "") eqn:Hne.
        -- apply String.eqb_eq in Hne. subst name.
           step_with ltac:(unfold lift; simpl; rewrite Himg; reflexivity).
           step. reflexivity.
        -- simpl in Hok.
           step_with ltac:(erewrite bind_ok;
             [| unfold lift; simpl; rewrite Himg; reflexivity];
             cbn [truthy]; rewrite Hne; cbn [negb]; cbv zeta;
             apply (unlink_image rt _ name Hok)).
           step. reflexivity.
    + step_with ltac:(unfold lift; simpl; rewrite Himg; reflexivity).
      step. reflexivity.
  - step. step. reflexivity.
Qed.

End Deleting.

(** C4, as the code has it: when the store document is in place and the
    id is not found in the mapped collection, the answer is 404 with the
    body [{error: 'Entry not found'}], which has no [code] property, and
    every file is left as it was. *)
Theorem C4_delete_missing_id (rt : Runtime) (w : World) (d : obj)
    (collection key : string) (arr : list json) (id : string) :
  fs w !! STORE_FILE rt = Some (StoreDoc d) ->
  collectionMap collection = Some key ->
  obj_get key (migrated d) = Some (JArr arr) ->
  findIndex (Some id) arr = Ret None ->
  let out := delete_entry rt collection id w in
  fst out = {| status := 404; body := Json (JObj [("error", JStr "Entry not found")]) |}
  /\ body_field (fst out) "error" = Some (JStr "Entry not found")
  /\ body_field (fst out) "code" = None
  /\ fs (snd out) = fs w.
Proof.
  intros Hfile Hkey Harr Hfind out. subst out.
  rewrite (delete_not_found rt w d collection key arr id Hfile Hkey Harr Hfind).
  repeat split.
Qed.

Lemma C4_delete_missing_id_witness :
  fs w1 !! STORE_FILE rt0 = Some (StoreDoc doc1)
  /\ collectionMap "vision" = Some "visionAnalyses"
  /\ obj_get "visionAnalyses" (migrated doc1) = Some (JArr [JObj vision1])
  /\ findIndex (Some "vision_0") [JObj vision1] = Ret None
  /\ fst (delete_entry rt0 "vision" "vision_0" w1) = json_error 404 "Entry not found"
  /\ fs (snd (delete_entry rt0 "vision" "vision_0" w1)) = fs w1.
Proof.
  assert (Hfile : fs w1 !! STORE_FILE rt0 = Some (StoreDoc doc1))
    by (vm_compute; reflexivity).
  destruct (C4_delete_missing_id rt0 w1 doc1 "vision" "visionAnalyses" [JObj vision1]
              "vision_0" Hfile eq_refl eq_refl eq_refl) as (Hres & _ & _ & Hfs).
  split; [exact Hfile |]. do 3 (split; [reflexivity |]).
  split; [exact Hres | exact Hfs].
Defined.

(** C4 as stated fails: the 404 body has an [error] property and no
    [code] property. *)
Lemma C4_not_found_body_has_no_code :
  status (fst (delete_entry rt0 "vision" "vision_0" w1)) = 404
  /\ body_field (fst (delete_entry rt0 "vision" "vision_0" w1)) "error"
     = Some (JStr "Entry not found")
  /\ body_field (fst (delete_entry rt0 "vision" "vision_0" w1)) "code" = None.
Proof. vm_compute. repeat split. Qed.



(** ** Chat sessions *)

Lemma findIndex_hit (id : string) (o : obj) (rest : list json) :
  obj_get "id" o = Some (JStr id) -> findIndex (Some id) (JObj o :: rest) = Ret (Some 0%nat).
Proof.
  intros H. cbn [findIndex get_prop]. rewrite H. cbn [strict_eq].
  rewrite String.eqb_refl. reflexivity.
Qed.

Lemma findIndex_insert (id : string) (o : obj) (l : list json) (n : nat) :
  findIndex (Some id) l = Ret (Some n) ->
  obj_get "id" o = Some (JStr id) ->
  findIndex (Some id) (<[n := JObj o]> l) = Ret (Some n).
Proof.
  intros Hfind Ho. revert n Hfind.
  induction l as [|x l IH]; intros n Hfind; [discriminate Hfind |].
  cbn [findIndex] in Hfind.
  destruct (get_prop x "id") as [v | e] eqn:Hv; [| discriminate Hfind].
  destruct (strict_eq v (Some id)) eqn:Heq.
  - injection Hfind as <-. apply findIndex_hit. exact Ho.
  - destruct (findIndex (Some id) l) as [[i|]|] eqn:Hrec; try discriminate Hfind.
    injection Hfind as <-.
    change (<[S i := JObj o]> (x :: l)) with (x :: <[i := JObj o]> l).
    cbn [findIndex]. rewrite Hv, Heq, (IH i eq_refl). reflexivity.
Qed.

Lemma literal_session_id (id : string) (messages startedAt lastMessageAt : option json) :
  obj_get "id" (literal [("id", Some (JStr id)); ("messages", messages);
                         ("startedAt", startedAt); ("lastMessageAt", lastMessageAt)])
  = Some (JStr id).
Proof. reflexivity. Qed.

Lemma literal_session_startedAt (id messages startedAt : option json) (last : json) :
  obj_get "startedAt" (literal [("id", id); ("messages", messages);
                                ("startedAt", startedAt); ("lastMessageAt", Some last)])
  = startedAt.
Proof. destruct id, messages, startedAt; reflexivity. Qed.

Section Chat.

Variables (rt : Runtime) (w : World) (d : obj).
Variables (sessions : list json) (id : string) (messages : option json).
Hypothesis Hfile : fs w !! STORE_FILE rt = Some (StoreDoc d).
Hypothesis Harr : obj_get "chatSessions" (migrated d) = Some (JArr sessions).
Hypothesis Hid : String.eqb id "" = false.

Lemma chat_created :
  findIndex (Some id) sessions = Ret None ->
  let session := literal [("id", Some (JStr id)); ("messages", messages);
                          ("startedAt", Some (JStr (iso (clock rt (ticks w)))));
                          ("lastMessageAt", Some (JStr (iso (clock rt (S (ticks w))))))] in
  post_chat rt (Some id) messages w
  = (json_ok (JObj session),
     after w (<[STORE_FILE rt := StoreDoc (obj_set "chatSessions"
                                             (JArr (JObj session :: sessions)) (migrated d))]>
                (fs w)) 2 0).
Proof.
  intros Hfind session. unfold post_chat, try_catch.
  step_with ltac:(apply readStore_present; exact Hfile).
  step_with ltac:(unfold lift; rewrite (as_array_get _ _ _ _ Harr); reflexivity).
  step_with ltac:(unfold lift; rewrite Hfind; reflexivity).
  rewrite Hid. cbn [negb].
  step. step. step. step. reflexivity.
Qed.

Lemma chat_updated (n : nat) :
  findIndex (Some id) sessions = Ret (Some n) ->
  let session := literal [("id", Some (JStr id)); ("messages", messages);
                          ("startedAt", startedAt_at sessions n);
                          ("lastMessageAt", Some (JStr (iso (clock rt (ticks w)))))] in
  post_chat rt (Some id) messages w
  = (json_ok (JObj session),
     after w (<[STORE_FILE rt := StoreDoc (obj_set "chatSessions"
                                             (JArr (<[n := JObj session]> sessions))
                                             (migrated d))]>
                (fs w)) 1 0).
Proof.
  intros Hfind session. subst session. unfold startedAt_at.
  destruct (findIndex_Some_obj id sessions n Hfind) as (item & Hitem & _).
  unfold post_chat, try_catch.
  step_with ltac:(apply readStore_present; exact Hfile).
  step_with ltac:(unfold lift; rewrite (as_array_get _ _ _ _ Harr); reflexivity).
  step_with ltac:(unfold lift; rewrite Hfind; reflexivity).
  rewrite Hid, Hitem. cbn [negb].
  step. step. step. step. reflexivity.
Qed.

End Chat.

(** C7, as the code has it, for a non-empty id and a store document whose
    [chatSessions] is an array: when a session with the id exists, it is
    replaced in place by one with the new messages, its own [startedAt] and
    [lastMessageAt] read from the clock; when none exists, a session is put
    first whose [startedAt] and [lastMessageAt] come from two successive
    readings of the clock, [startedAt] first.  A second upsert with the
    same id then keeps that [startedAt], and carries the second call's
    messages and a [lastMessageAt] read during the second call. *)
Theorem C7_chat_upsert (rt : Runtime) (w : World) (d : obj) (sessions : list json)
    (id : string) (messages messages2 : option json) (found : option nat) :
  fs w !! STORE_FILE rt = Some (StoreDoc d) ->
  obj_get "chatSessions" (migrated d) = Some (JArr sessions) ->
  String.eqb id "" = false ->
  findIndex (Some id) sessions = Ret found ->
  let started := match found with
                 | Some n => startedAt_at sessions n
                 | None => Some (JStr (iso (clock rt (ticks w))))
                 end in
  let reads := match found with Some _ => 1%nat | None => 2%nat end in
  let session := literal [("id", Some (JStr id)); ("messages", messages);
                          ("startedAt", started);
                          ("lastMessageAt",
                           Some (JStr (iso (clock rt (Nat.pred reads + ticks w)))))] in
  let sessions' := match found with
                   | Some n => <[n := JObj session]> sessions
                   | None => JObj session :: sessions
                   end in
  let out := post_chat rt (Some id) messages w in
  fst out = json_ok (JObj session)
  /\ fs (snd out)
     = <[STORE_FILE rt := StoreDoc (obj_set "chatSessions" (JArr sessions') (migrated d))]>
         (fs w)
  /\ fst (post_chat rt (Some id) messages2 (snd out))
     = json_ok (JObj (literal [("id", Some (JStr id)); ("messages", messages2);
                               ("startedAt", started);
                               ("lastMessageAt",
                                Some (JStr (iso (clock rt (reads + ticks w)))))])).
Proof.
  intros Hfile Harr Hid Hfind started reads session sessions' out.
  assert (Hsid : obj_get "id" session = Some (JStr id)) by reflexivity.
  assert (Hstart : obj_get "startedAt" session = started)
    by apply literal_session_startedAt.
  assert (Hout : out = (json_ok (JObj session),
                        after w (<[STORE_FILE rt := StoreDoc (obj_set "chatSessions"
                                    (JArr sessions') (migrated d))]> (fs w)) reads 0)).
  { subst out sessions' session started reads. destruct found as [n|].
    - apply (chat_updated rt w d sessions id messages Hfile Harr Hid n Hfind).
    - apply (chat_created rt w d sessions id messages Hfile Harr Hid Hfind). }
  rewrite Hout. cbn [fst snd]. split; [reflexivity |]. split; [reflexivity |].
  assert (Hhit : exists n', findIndex (Some id) sessions' = Ret (Some n')
                            /\ startedAt_at sessions' n' = started).
  { subst sessions'. destruct found as [n|].
    - exists n. split; [apply findIndex_insert; assumption |].
      destruct (findIndex_Some_obj id sessions n Hfind) as (item & Hitem & _).
      unfold startedAt_at.
      rewrite list_lookup_insert_eq by (apply lookup_lt_Some in Hitem; exact Hitem).
      exact Hstart.
    - exists 0%nat. split; [apply findIndex_hit; exact Hsid | exact Hstart]. }
  destruct Hhit as (n' & Hfind' & Hstart').
  erewrite (chat_updated rt _ _ sessions' id messages2); [| | | exact Hid | exact Hfind'].
  - cbn [fst after ticks]. rewrite Hstart'. reflexivity.
  - cbn [after fs]. apply lookup_insert_eq.
  - rewrite (migrated_array "chatSessions" sessions'); [reflexivity |].
    apply obj_get_set_eq.
Qed.

Lemma C7_chat_upsert_witness :
  fs w1 !! STORE_FILE rt0 = Some (StoreDoc doc1)
  /\ obj_get "chatSessions" (migrated doc1) = Some (JArr [JObj chat1])
  /\ String.eqb "chat_7" "" = false
  /\ findIndex (Some "chat_7") [JObj chat1] = Ret None
  /\ fst (post_chat rt0 (Some "chat_7") (Some (JArr [JStr "oi"])) w1)
     = json_ok (JObj [("id", JStr "chat_7"); ("messages", JArr [JStr "oi"]);
                      ("startedAt", JStr "2023-11-14T22:13:20.000Z");
                      ("lastMessageAt", JStr "2023-11-14T22:13:20.001Z")])
  /\ fst (post_chat rt0 (Some "chat_7") (Some (JArr [JStr "oi"; JStr "tudo bem?"]))
            (snd (post_chat rt0 (Some "chat_7") (Some (JArr [JStr "oi"])) w1)))
     = json_ok (JObj [("id", JStr "chat_7");
                      ("messages", JArr [JStr "oi"; JStr "tudo bem?"]);
                      ("startedAt", JStr "2023-11-14T22:13:20.000Z");
                      ("lastMessageAt", JStr "2023-11-14T22:13:20.002Z")]).
Proof.
  assert (Hfile : fs w1 !! STORE_FILE rt0 = Some (StoreDoc doc1))
    by (vm_compute; reflexivity).
  destruct (C7_chat_upsert rt0 w1 doc1 [JObj chat1] "chat_7" (Some (JArr [JStr "oi"]))
              (Some (JArr [JStr "oi"; JStr "tudo bem?"])) None
              Hfile eq_refl eq_refl eq_refl) as (Hfirst & _ & Hsecond).
  split; [exact Hfile |]. do 3 (split; [reflexivity |]).
  split; [exact Hfirst | exact Hsecond].
Defined.

(** C7 as stated fails: a session created while the clock advances has a
    [startedAt] different from its [lastMessageAt]. *)
Lemma C7_created_session_two_readings :
  findIndex (Some "chat_7") [JObj chat1] = Ret None
  /\ body_field (fst (post_chat rt0 (Some "chat_7") (Some (JArr [])) w1)) "startedAt"
     = Some (JStr "2023-11-14T22:13:20.000Z")
  /\ body_field (fst (post_chat rt0 (Some "chat_7") (Some (JArr [])) w1)) "lastMessageAt"
     = Some (JStr "2023-11-14T22:13:20.001Z")
  /\ body_field (fst (post_chat rt0 (Some "chat_7") (Some (JArr [])) w1)) "startedAt"
     <> body_field (fst (post_chat rt0 (Some "chat_7") (Some (JArr [])) w1))
          "lastMessageAt".
Proof.
  split; [reflexivity |]. split; [vm_compute; reflexivity |].
  split; [vm_compute; reflexivity |]. vm_compute. discriminate.
Qed.

(** ** Serving images *)

Lemma path_join_up_store (rt : Runtime) :
  path_join (IMAGES_DIR rt) "../store.json" = STORE_FILE rt.
Proof.
  unfold path_join.
  change (split_slash "../store.json") with [".."; "store.json"].
  change (ends_with_slash "../store.json") with false.
  cbn [fold_left]. unfold join_step at 2. cbn [String.eqb Ascii.eqb Bool.eqb orb].
  unfold IMAGES_DIR. rewrite removelast_last. reflexivity.
Qed.

Lemma store_outside_images (rt : Runtime) :
  ~ IMAGES_DIR rt `prefix_of` STORE_FILE rt.
Proof.
  intros [k Hk]. unfold IMAGES_DIR, STORE_FILE in Hk.
  assert (Hlen : length k = 0%nat).
  { apply (f_equal length) in Hk. rewrite !length_app in Hk. simpl in Hk. lia. }
  destruct k; [| discriminate Hlen]. rewrite app_nil_r in Hk.
  apply app_inj_tail in Hk as [_ Hk]. discriminate Hk.
Qed.

Lemma get_image_store (rt : Runtime) (w : World) (f : file) :
  fs w !! STORE_FILE rt = Some f ->
  get_image rt "../store.json" w
  = ({| status := 200; body := SendFile (STORE_FILE rt) |}, w).
Proof.
  intros H. unfold get_image, try_catch, bind, existsSync.
  rewrite path_join_up_store, H. reflexivity.
Qed.

(** Serving an image changes nothing, whatever the file name. *)
Lemma get_image_pure (rt : Runtime) (filename : string) (w : World) :
  snd (get_image rt filename w) = w.
Proof.
  unfold get_image, try_catch, bind, existsSync.
  destruct (fs w !! path_join (IMAGES_DIR rt) filename); [reflexivity |].
  destruct (is_directory rt w _); reflexivity.
Qed.

(** A plain file name is served exactly when the images directory has a
    file of that name. *)
Lemma get_image_plain (rt : Runtime) (filename : string) (w : World) :
  is_plain filename = true ->
  fst (get_image rt filename w)
  = match fs w !! (IMAGES_DIR rt ++ [filename])%list with
    | Some _ => {| status := 200; body := SendFile (IMAGES_DIR rt ++ [filename])%list |}
    | None => json_error 404 "Image not found"
    end.
Proof.
  intros Hplain. unfold get_image, try_catch, bind, existsSync.
  rewrite (path_join_plain _ _ Hplain).
  destruct (fs w !! (IMAGES_DIR rt ++ [filename])%list); [reflexivity |].
  rewrite is_directory_image; [reflexivity |].
  unfold is_plain in Hplain. destruct (String.eqb filename ""); [| reflexivity].
  rewrite andb_false_r in Hplain. discriminate Hplain.
Qed.

(** C8, at the failing input: the file name [../store.json] is answered
    with the store file, which does not lie under the images directory. *)
Theorem C8_serves_file_outside_images :
  get_image rt0 "../store.json" w1
  = ({| status := 200; body := SendFile ["srv"; "app"; "data"; "store.json"] |}, w1)
  /\ fs w1 !! ["srv"; "app"; "data"; "store.json"] = Some (StoreDoc doc1)
  /\ IMAGES_DIR rt0 = ["srv"; "app"; "data"; "images"]
  /\ ~ IMAGES_DIR rt0 `prefix_of` ["srv"; "app"; "data"; "store.json"].
Proof.
  assert (Hfile : fs w1 !! STORE_FILE rt0 = Some (StoreDoc doc1))
    by (vm_compute; reflexivity).
  split; [exact (get_image_store rt0 w1 _ Hfile) |].
  split; [exact Hfile |]. split; [reflexivity |].
  exact (store_outside_images rt0).
Qed.

(** ** The version of the store document *)

Section Version.

Variable rt : Runtime.

Lemma persisted_version_fs (w w' : World) :
  fs w' = fs w -> persisted_version rt w' = persisted_version rt w.
Proof. intros H. unfold persisted_version. rewrite H. reflexivity. Qed.

Lemma snd_try_catch (handler : M Response) (w : World) :
  snd (try_catch handler w) = snd (handler w).
Proof. unfold try_catch. destruct (handler w) as [[r | e] w']; reflexivity. Qed.

Lemma keeps_same_files {A} (v : option json) (c : M A) :
  (forall w, fs (snd (c w)) = fs w) -> keeps rt v c.
Proof.
  intros H w Hv. rewrite (persisted_version_fs w (snd (c w)) (H w)). exact Hv.
Qed.

Lemma keeps_ret {A} (v : option json) (a : A) : keeps rt v (ret a).
Proof. apply keeps_same_files. reflexivity. Qed.

Lemma keeps_throw {A} (v : option json) (e : exn) : keeps rt v (@throw A e).
Proof. apply keeps_same_files. reflexivity. Qed.

Lemma keeps_lift {A} (v : option json) (o : outcome A) : keeps rt v (lift o).
Proof. apply keeps_same_files. reflexivity. Qed.

Lemma keeps_Date_now (v : option json) : keeps rt v (Date_now rt).
Proof. apply keeps_same_files. reflexivity. Qed.

Lemma keeps_new_Date (v : option json) : keeps rt v (new_Date_toISOString rt).
Proof. apply keeps_same_files. reflexivity. Qed.

Lemma keeps_random (v : option json) : keeps rt v (Math_random_suffix rt).
Proof. apply keeps_same_files. reflexivity. Qed.

Lemma keeps_bind {A B} (v : option json) (c : M A) (k : A -> M B) :
  keeps rt v c ->
  (forall w a w', c w = (Ret a, w') -> keeps rt v (k a)) ->
  keeps rt v (bind c k).
Proof.
  intros Hc Hk w Hv. unfold bind.
  specialize (Hc w Hv). destruct (c w) as [[a | e] w'] eqn:E; cbn [snd] in Hc.
  - exact (Hk w a w' E w' Hc).
  - exact Hc.
Qed.

Lemma written_version (data : obj) (w : World) :
  persisted_version rt (snd (writeStore rt data w)) = Some (obj_get "version" data).
Proof.
  unfold writeStore, bind, ensureDataDir, writeFileSync, persisted_version.
  cbn [snd fs with_fs]. rewrite lookup_insert_eq. reflexivity.
Qed.

Lemma keeps_writeStore (v : option json) (data : obj) :
  obj_get "version" data = v -> keeps rt v (writeStore rt data).
Proof. intros <- w _. apply written_version. Qed.

Lemma keeps_write_image (v : option json) (name : string) (f : file) :
  is_plain name = true ->
  keeps rt v (writeFileSync (path_join (IMAGES_DIR rt) name) f).
Proof.
  intros Hplain w Hv. rewrite (path_join_plain _ _ Hplain).
  unfold writeFileSync, persisted_version in *. cbn [snd fs with_fs].
  rewrite lookup_insert_ne by apply image_not_store. exact Hv.
Qed.

Lemma keeps_save_image (v : option json) (imageData : option string)
    (mk_name : M string) :
  keeps rt v mk_name ->
  (forall w name w', mk_name w = (Ret name, w') -> is_plain name = true) ->
  keeps rt v (save_image rt imageData mk_name).
Proof.
  intros Hmk Hplain. unfold save_image.
  destruct imageData as [data|]; [| apply keeps_ret].
  destruct (negb _); [| apply keeps_ret].
  destruct (data_uri_match data); [| apply keeps_ret].
  apply keeps_bind; [exact Hmk |]. intros w name w' Hname.
  apply keeps_bind; [| intros; apply keeps_ret].
  apply keeps_write_image. exact (Hplain w name w' Hname).
Qed.

Lemma unshift_version (key : string) (entry store store' : obj) :
  key <> "version" ->
  unshift key entry store = Ret store' ->
  obj_get "version" store' = obj_get "version" store.
Proof.
  intros Hne. unfold unshift. destruct (as_array key "unshift" store); [| discriminate].
  intros [= <-]. apply obj_get_set_ne. intros H. apply Hne. symmetry. exact H.
Qed.

(** The tail shared by the four handlers that put a new entity first. *)
Lemma keeps_unshift_write (key : string) (entry store : obj) (r : Response) :
  key <> "version" ->
  keeps rt (obj_get "version" store)
    (bind (lift (unshift key entry store))
          (fun store' => bind (writeStore rt store') (fun _ => ret r))).
Proof.
  intros Hne. apply keeps_bind; [apply keeps_lift |].
  intros w store' w' H. unfold lift in H. injection H as H _.
  apply keeps_bind; [| intros; apply keeps_ret].
  apply keeps_writeStore. exact (unshift_version key entry store store' Hne H).
Qed.

Lemma loaded_then (body : obj -> M Response) (w : World) :
  (forall store, keeps rt (obj_get "version" store) (body store)) ->
  persisted_version rt (snd (try_catch (bind (readStore rt) body) w))
  = loaded_version rt w.
Proof.
  intros Hbody. rewrite snd_try_catch. unfold loaded_version.
  destruct (fs w !! STORE_FILE rt) as [[bytes | d] |] eqn:Hfile.
  - rewrite (bind_throw _ _ _ _ _ (readStore_blob rt w bytes Hfile)).
    rewrite (readStore_blob rt w bytes Hfile).
    unfold persisted_version. cbn [snd made fs]. rewrite Hfile. reflexivity.
  - rewrite (bind_ok _ _ _ _ _ (readStore_present rt w d Hfile)).
    rewrite (readStore_present rt w d Hfile).
    apply Hbody. unfold persisted_version. cbn [made fs]. rewrite Hfile.
    rewrite migrated_other by discriminate. reflexivity.
  - rewrite (bind_ok _ _ _ _ _ (readStore_absent rt w Hfile)).
    rewrite (readStore_absent rt w Hfile).
    apply Hbody. unfold persisted_version. cbn [made fs with_fs].
    rewrite lookup_insert_eq. reflexivity.
Qed.

Lemma collectionMap_not_version (collection key : string) :
  collectionMap collection = Some key -> key <> "version".
Proof.
  unfold collectionMap.
  repeat (destruct (String.eqb collection _); [intros [= <-]; discriminate |]).
  discriminate.
Qed.

(** When it does not throw, the rest of a delete ends by writing the
    document; when it throws, no file has changed. *)
Lemma keeps_harmless_write {A} (c : M A) (data : obj) (r : Response) :
  harmless c ->
  keeps rt (obj_get "version" data)
    (bind c (fun _ => bind (writeStore rt data) (fun _ => ret r))).
Proof.
  intros Hc w Hv. unfold bind at 1.
  destruct (c w) as [[a | e] w'] eqn:E.
  - unfold bind, ret.
    destruct (writeStore rt data w') as [[u | e] w''] eqn:Ew.
    + cbn [snd]. change w'' with (snd (Ret u, w'')). rewrite <- Ew.
      apply written_version.
    + cbn [snd]. change w'' with (snd (@Throw unit e, w'')). rewrite <- Ew.
      apply written_version.
  - cbn [snd]. rewrite (persisted_version_fs w w' (Hc w e w' E)). exact Hv.
Qed.

Lemma harmless_ret {A} (a : A) : harmless (ret a).
Proof. intros w e w' H. discriminate H. Qed.

Lemma harmless_unlink_image (p : path) :
  harmless (bind (existsSync rt p)
                 (fun there => if there then unlinkSync rt p else ret tt)).
Proof.
  intros w e w' H. unfold bind, existsSync, unlinkSync, ret in H.
  destruct (fs w !! p) eqn:Hl.
  - rewrite Hl in H. discriminate H.
  - destruct (is_directory rt w (drop_slash p)).
    + rewrite Hl in H. injection H as _ <-. reflexivity.
    + discriminate H.
Qed.

Ltac keeps_steps :=
  repeat first
    [ apply keeps_ret | apply keeps_throw | apply keeps_lift
    | apply keeps_Date_now | apply keeps_new_Date | apply keeps_random
    | apply keeps_bind; [| intros ? ? ? _] ].

Lemma gen_name_made (w : World) (name : string) (w' : World) :
  bind (Date_now rt) (fun t' => bind (Math_random_suffix rt)
      (fun r' => ret ("gen_" ++ dec t' ++ "_" ++ r' ++ ".png"))) w = (Ret name, w') ->
  is_plain name = true.
Proof. intros [= <- _]. apply gen_name_plain. Qed.

Lemma img_name_made (w : World) (name : string) (w' : World) :
  bind (Date_now rt) (fun t' => ret ("img_" ++ dec t' ++ ".png")) w = (Ret name, w') ->
  is_plain name = true.
Proof. intros [= <- _]. apply img_name_plain. Qed.

Lemma version_generated_image (cameraName : option json) (imageData : option string)
    (w : World) :
  persisted_version rt (snd (post_generated_image rt cameraName imageData w))
  = loaded_version rt w.
Proof.
  unfold post_generated_image. apply loaded_then. intros store.
  apply keeps_bind; [apply keeps_Date_now | intros ? t ? _].
  apply keeps_bind; [apply keeps_random | intros ? r ? _]. cbv zeta.
  apply keeps_bind.
  { apply keeps_save_image; [keeps_steps | apply gen_name_made]. }
  intros ? [f|] ? _; [| apply keeps_ret].
  apply keeps_bind; [apply keeps_new_Date | intros ? timestamp ? _]. cbv zeta.
  apply keeps_unshift_write. discriminate.
Qed.

Lemma version_vision (cameraName : option json) (imageData : option string)
    (task result : option json) (w : World) :
  persisted_version rt (snd (post_vision rt cameraName imageData task result w))
  = loaded_version rt w.
Proof.
  unfold post_vision. apply loaded_then. intros store.
  apply keeps_bind; [apply keeps_Date_now | intros ? t ? _]. cbv zeta.
  apply keeps_bind.
  { apply keeps_save_image; [keeps_steps | apply img_name_made]. }
  intros ? imageFile ? _.
  apply keeps_bind; [apply keeps_new_Date | intros ? timestamp ? _]. cbv zeta.
  apply keeps_unshift_write. discriminate.
Qed.

Lemma version_chat (id : option string) (messages : option json) (w : World) :
  persisted_version rt (snd (post_chat rt id messages w)) = loaded_version rt w.
Proof.
  unfold post_chat. apply loaded_then. intros store.
  apply keeps_bind; [apply keeps_lift | intros ? sessions ? _].
  apply keeps_bind; [apply keeps_lift | intros ? existingIndex ? _].
  apply keeps_bind.
  { destruct id as [i|]; [destruct (negb _) |]; keeps_steps. }
  intros ? id' ? _.
  apply keeps_bind.
  { destruct existingIndex as [i|]; [destruct (sessions !! i) |]; keeps_steps. }
  intros ? startedAt ? _.
  apply keeps_bind; [apply keeps_new_Date | intros ? lastMessageAt ? _]. cbv zeta.
  apply keeps_bind; [| intros; apply keeps_ret].
  apply keeps_writeStore. apply obj_get_set_ne. discriminate.
Qed.

Lemma version_sustainability (inputData report charts : option json) (w : World) :
  persisted_version rt (snd (post_sustainability rt inputData report charts w))
  = loaded_version rt w.
Proof.
  unfold post_sustainability. apply loaded_then. intros store.
  apply keeps_bind; [apply keeps_Date_now | intros ? t ? _].
  apply keeps_bind; [apply keeps_new_Date | intros ? timestamp ? _]. cbv zeta.
  apply keeps_unshift_write. discriminate.
Qed.

Lemma version_dashboard (insights charts stats text : option json) (w : World) :
  persisted_version rt (snd (post_dashboard rt insights charts stats text w))
  = loaded_version rt w.
Proof.
  unfold post_dashboard. apply loaded_then. intros store.
  apply keeps_bind; [apply keeps_Date_now | intros ? t ? _].
  apply keeps_bind; [apply keeps_new_Date | intros ? timestamp ? _]. cbv zeta.
  apply keeps_unshift_write. discriminate.
Qed.

Lemma harmless_lift {A} (o : outcome A) : harmless (lift o).
Proof. intros w e w' [= _ <-]. reflexivity. Qed.

Lemma harmless_throw {A} (e : exn) : harmless (@throw A e).
Proof. intros w e' w' [= _ <-]. reflexivity. Qed.

Lemma harmless_bind_pure {A B} (c : M A) (k : A -> M B) :
  (forall w, snd (c w) = w) -> (forall a, harmless (k a)) -> harmless (bind c k).
Proof.
  intros Hc Hk w e w' H. unfold bind in H. specialize (Hc w).
  destruct (c w) as [[a | e0] w0]; cbn [snd] in Hc; subst w0.
  - exact (Hk a w e w' H).
  - injection H as _ <-. reflexivity.
Qed.

Lemma version_delete (collection id : string) (w : World) :
  persisted_version rt (snd (delete_entry rt collection id w)) = loaded_version rt w.
Proof.
  unfold delete_entry. apply loaded_then. intros store.
  destruct (collectionMap collection) as [key|] eqn:Hkey.
  2:{ destruct (bool_decide _); [apply keeps_throw | apply keeps_ret]. }
  apply keeps_bind; [apply keeps_lift | intros ? arr ? _].
  apply keeps_bind; [apply keeps_lift | intros ? [idx|] ? _]; [| apply keeps_ret].
  assert (Hv : obj_get "version" (obj_set key (JArr (splice1 idx arr)) store)
               = obj_get "version" store).
  { apply obj_get_set_ne. intros H. symmetry in H.
    exact (collectionMap_not_version collection key Hkey H). }
  rewrite <- Hv. apply keeps_harmless_write.
  destruct (_ || _); [| apply harmless_ret].
  apply harmless_bind_pure.
  { intros u. destruct (arr !! idx); reflexivity. }
  intros imageFile. destruct (truthy imageFile); [| apply harmless_ret].
  destruct imageFile as [[]|]; try apply harmless_throw.
  apply harmless_unlink_image.
Qed.

End Version.

(** C10: whatever the operation and the state of the disk, the [version]
    of the document in the store file after the operation is the
    [version] of the document the operation loaded (and when loading
    fails there is no document before or after); a store created by
    loading has version 1. *)
Theorem C10_version_preserved (rt : Runtime) (op : operation) (w : World) :
  persisted_version rt (snd (run rt op w)) = loaded_version rt w
  /\ fst (readStore rt (with_fs (delete (STORE_FILE rt) (fs w)) w)) = Ret empty
  /\ obj_get "version" empty = Some (JNum 1).
Proof.
  split; [| split; [| reflexivity]].
  - destruct op; cbn [run].
    + apply version_generated_image.
    + apply version_vision.
    + apply version_chat.
    + apply version_sustainability.
    + apply version_dashboard.
    + apply version_delete.
  - rewrite readStore_absent; [reflexivity |].
    cbn [with_fs fs]. apply lookup_delete_eq.
Qed.

Example version_kept_by_delete :
  persisted_version rt0 (snd (run rt0 (Delete "vision" "vision_1699999999000") w1))
  = Some (Some (JNum 1)).
Proof. vm_compute. reflexivity. Qed.

End PersistenceFacts.

(** * Further properties of the persistence store *)

Module PersistenceMore.
Import Persistence PersistenceFacts.

(** ** The data URI pattern *)

Lemma strip_prefix_app (p s : string) : strip_prefix p (p ++ s) = Some s.
Proof.
  induction p as [|a p IH]; [destruct s; reflexivity |].
  change (String a p ++ s) with (String a (p ++ s)).
  cbn [strip_prefix]. rewrite Ascii.eqb_refl. exact IH.
Qed.

Lemma strip_prefix_Some (p s r : string) : strip_prefix p s = Some r -> s = p ++ r.
Proof.
  revert s. induction p as [|a p IH]; intros s H.
  - destruct s; injection H as <-; reflexivity.
  - destruct s as [|b s]; [discriminate H |]. cbn [strip_prefix] in H.
    destruct (Ascii.eqb a b) eqn:E; [| discriminate H].
    apply Ascii.eqb_eq in E. subst b.
    change (String a p ++ r) with (String a (p ++ r)). f_equal. exact (IH s H).
Qed.

Lemma skip_word_split (s : string) :
  exists w, s = w ++ skip_word s /\ all_word w = true.
Proof.
  induction s as [|c s (w & Hs & Hw)].
  - exists "". split; reflexivity.
  - cbn [skip_word]. destruct (is_word c) eqn:Hc.
    + exists (String c w). split.
      * change (String c w ++ skip_word s) with (String c (w ++ skip_word s)).
        f_equal. exact Hs.
      * cbn [all_word]. rewrite Hc. exact Hw.
    + exists "". split; reflexivity.
Qed.

Lemma skip_word_app (w r : string) :
  all_word w = true -> skip_word r = r -> skip_word (w ++ r) = r.
Proof.
  intros Hw Hr. induction w as [|c w IH]; [exact Hr |].
  cbn [all_word] in Hw. apply andb_true_iff in Hw as [Hc Hw].
  change (String c w ++ r) with (String c (w ++ r)).
  cbn [skip_word]. rewrite Hc. exact (IH Hw).
Qed.

Lemma data_uri_match_sound (imageData payload : string) :
  data_uri_match imageData = Some payload ->
  exists subtype,
    imageData = "data:image/" ++ subtype ++ ";base64," ++ payload
    /\ subtype <> "" /\ all_word subtype = true
    /\ payload <> "" /\ has_line_terminator payload = false.
Proof.
  unfold data_uri_match. intros H.
  destruct (strip_prefix "data:image/" imageData) as [[|c rest]|] eqn:Hp;
    try discriminate H.
  destruct (is_word c) eqn:Hc; [| discriminate H].
  destruct (strip_prefix ";base64," (skip_word rest)) as [p|] eqn:Hb;
    [| discriminate H].
  destruct (String.eqb p "") eqn:He; [discriminate H |].
  destruct (has_line_terminator p) eqn:Hl; [discriminate H |].
  cbn [orb] in H. injection H as <-.
  destruct (skip_word_split rest) as (w & Hrest & Hw).
  exists (String c w).
  apply strip_prefix_Some in Hp, Hb. rewrite Hb in Hrest.
  split; [| split; [discriminate | split; [| split]]].
  - rewrite Hp, Hrest. reflexivity.
  - cbn [all_word]. rewrite Hc. exact Hw.
  - apply String.eqb_neq. exact He.
  - exact Hl.
Qed.

Lemma data_uri_match_complete (subtype payload : string) :
  subtype <> "" -> all_word subtype = true ->
  payload <> "" -> has_line_terminator payload = false ->
  data_uri_match ("data:image/" ++ subtype ++ ";base64," ++ payload) = Some payload.
Proof.
  intros Hne Hw Hpne Hl.
  unfold data_uri_match. rewrite strip_prefix_app.
  destruct subtype as [|c w]; [contradiction |].
  cbn [all_word] in Hw. apply andb_true_iff in Hw as [Hc Hw].
  change (String c w ++ ";base64," ++ payload)
    with (String c (w ++ ";base64," ++ payload)).
  cbn iota. rewrite Hc.
  rewrite (skip_word_app w (";base64," ++ payload) Hw eq_refl).
  rewrite strip_prefix_app. apply String.eqb_neq in Hpne. rewrite Hpne, Hl.
  reflexivity.
Qed.

(** X1: the data URI pattern accepts exactly the strings made of
    [data:image/], a non-empty run of word characters, [;base64,] and a
    non-empty payload without line terminators, and captures that
    payload. *)
Theorem data_uri_match_spec (imageData payload : string) :
  data_uri_match imageData = Some payload <->
  exists subtype,
    imageData = "data:image/" ++ subtype ++ ";base64," ++ payload
    /\ subtype <> "" /\ all_word subtype = true
    /\ payload <> "" /\ has_line_terminator payload = false.
Proof.
  split; [apply data_uri_match_sound |].
  intros (subtype & -> & Hne & Hw & Hpne & Hl).
  apply data_uri_match_complete; assumption.
Qed.

(** ** Loading *)

(** X2: loading when there is no store file writes the empty document
    with all five collections and version 1 and returns it; loading again
    returns the same document and changes no file. *)
Theorem fresh_load_is_idempotent (rt : Runtime) (w : World) :
  fs w !! STORE_FILE rt = None ->
  fst (get_data rt w) = json_ok (JObj empty)
  /\ fs (snd (get_data rt w)) = <[STORE_FILE rt := StoreDoc empty]> (fs w)
  /\ fst (get_data rt (snd (get_data rt w))) = json_ok (JObj empty)
  /\ fs (snd (get_data rt (snd (get_data rt w)))) = fs (snd (get_data rt w)).
Proof.
  intros Habs.
  assert (H1 : get_data rt w
               = (json_ok (JObj empty),
                  with_fs (<[STORE_FILE rt := StoreDoc empty]> (fs w)) (made w))).
  { unfold get_data, try_catch. rewrite (bind_ok _ _ _ _ _ (readStore_absent rt w Habs)).
    reflexivity. }
  rewrite H1. cbn [fst snd with_fs fs].
  split; [reflexivity |]. split; [reflexivity |].
  rewrite (get_data_present rt _ empty) by (cbn [fs]; apply lookup_insert_eq).
  split; reflexivity.
Qed.

Lemma fresh_load_is_idempotent_witness :
  fs w_none !! STORE_FILE rt0 = None
  /\ fst (get_data rt0 w_none) = json_ok (JObj empty)
  /\ fst (get_data rt0 (snd (get_data rt0 w_none))) = json_ok (JObj empty).
Proof.
  assert (Habs : fs w_none !! STORE_FILE rt0 = None) by (vm_compute; reflexivity).
  destruct (fresh_load_is_idempotent rt0 w_none Habs) as (H1 & _ & H2 & _).
  split; [exact Habs |]. split; [exact H1 | exact H2].
Defined.


(** X3: when the store file does not parse, every operation and the
    load answer 500 and leave every file, the store file included, as it
    was. *)
Theorem unreadable_store_is_left_alone (rt : Runtime) (op : operation) (w : World)
    (bytes : list Byte.byte) :
  fs w !! STORE_FILE rt = Some (Blob bytes) ->
  status (fst (run rt op w)) = 500
  /\ fs (snd (run rt op w)) = fs w
  /\ status (fst (get_data rt w)) = 500
  /\ fs (snd (get_data rt w)) = fs w.
Proof.
  intros Hblob.
  pose proof (readStore_blob rt w bytes Hblob) as Hload.
  assert (Hall : forall body : obj -> M Response,
            try_catch (bind (readStore rt) body) w
            = (json_error 500 "Unexpected token in JSON", made w)).
  { intros body. unfold try_catch. rewrite (bind_throw _ _ _ _ _ Hload). reflexivity. }
  split; [| split; [| split]].
  - destruct op; cbn [run]; unfold post_generated_image, post_vision, post_chat,
      post_sustainability, post_dashboard, delete_entry; rewrite Hall; reflexivity.
  - destruct op; cbn [run]; unfold post_generated_image, post_vision, post_chat,
      post_sustainability, post_dashboard, delete_entry; rewrite Hall; reflexivity.
  - unfold get_data. rewrite Hall. reflexivity.
  - unfold get_data. rewrite Hall. reflexivity.
Qed.

Lemma unreadable_store_is_left_alone_witness :
  fs w_broken !! STORE_FILE rt0 = Some (Blob png1)
  /\ status (fst (run rt0 (UpsertChat (Some "chat_1") None) w_broken)) = 500
  /\ fs (snd (run rt0 (UpsertChat (Some "chat_1") None) w_broken)) = fs w_broken.
Proof.
  assert (Hblob : fs w_broken !! STORE_FILE rt0 = Some (Blob png1))
    by (vm_compute; reflexivity).
  destruct (unreadable_store_is_left_alone rt0 (UpsertChat (Some "chat_1") None)
              w_broken png1 Hblob) as (H1 & H2 & _).
  split; [exact Hblob |]. split; [exact H1 | exact H2].
Defined.


(** ** Deleting *)

(** X4: a delete whose collection name is not one of the five of the
    table (nor a name inherited by every object) is answered with 400
    [Invalid collection] and changes no file, whatever the id. *)
Theorem delete_unknown_collection (rt : Runtime) (w : World) (d : obj)
    (collection id : string) :
  fs w !! STORE_FILE rt = Some (StoreDoc d) ->
  collectionMap collection = None ->
  collection ∉ inherited ->
  fst (delete_entry rt collection id w) = json_error 400 "Invalid collection"
  /\ fs (snd (delete_entry rt collection id w)) = fs w.
Proof.
  intros Hfile Hmap Hin.
  unfold delete_entry, try_catch.
  rewrite (bind_ok _ _ _ _ _ (readStore_present rt w d Hfile)), Hmap.
  rewrite bool_decide_eq_false_2 by exact Hin. split; reflexivity.
Qed.

Lemma briefing_not_inherited : "briefing" ∉ inherited.
Proof.
  unfold inherited. intros H.
  repeat (apply elem_of_cons in H as [H | H]; [discriminate H |]).
  inversion H.
Qed.

Lemma delete_unknown_collection_witness :
  fs w1 !! STORE_FILE rt0 = Some (StoreDoc doc1)
  /\ collectionMap "briefing" = None
  /\ ("briefing" ∉ inherited)
  /\ fst (delete_entry rt0 "briefing" "brief_1" w1) = json_error 400 "Invalid collection"
  /\ fs (snd (delete_entry rt0 "briefing" "brief_1" w1)) = fs w1.
Proof.
  assert (Hfile : fs w1 !! STORE_FILE rt0 = Some (StoreDoc doc1))
    by (vm_compute; reflexivity).
  split; [exact Hfile |]. split; [reflexivity |]. split; [exact briefing_not_inherited |].
  exact (delete_unknown_collection rt0 w1 doc1 "briefing" "brief_1" Hfile eq_refl
           briefing_not_inherited).
Defined.


(** ** Serving *)







(** X6: for a plain file name, the image is served exactly when the images
    directory has a file of that name, the answer is 404 otherwise, and
    nothing changes either way. *)
Theorem get_image_by_name (rt : Runtime) (filename : string) (w : World) :
  is_plain filename = true ->
  get_image rt filename w
  = (match fs w !! (IMAGES_DIR rt ++ [filename])%list with
     | Some _ => {| status := 200; body := SendFile (IMAGES_DIR rt ++ [filename])%list |}
     | None => json_error 404 "Image not found"
     end, w).
Proof.
  intros Hplain.
  rewrite (surjective_pairing (get_image rt filename w)).
  rewrite get_image_pure, (get_image_plain rt filename w Hplain). reflexivity.
Qed.

Lemma get_image_by_name_witness :
  is_plain "missing.png" = true
  /\ get_image rt0 "missing.png" w1 = (json_error 404 "Image not found", w1).
Proof.
  split; [reflexivity |].
  rewrite (get_image_by_name rt0 "missing.png" w1 eq_refl).
  vm_compute. reflexivity.
Defined.


(** ** Documents as loaded *)

Lemma migrated_truthy (d : obj) : truthy (obj_get "generatedImages" (migrated d)) = true.
Proof.
  unfold migrated. destruct (truthy (obj_get "generatedImages" d)) eqn:E; cbn [negb].
  - exact E.
  - rewrite obj_get_set_eq. reflexivity.
Qed.

Lemma migrated_fixed (o : obj) :
  truthy (obj_get "generatedImages" o) = true -> migrated o = o.
Proof. intros H. unfold migrated. rewrite H. reflexivity. Qed.

Lemma migrated_set (k : string) (items : list json) (d : obj) :
  migrated (obj_set k (JArr items) (migrated d)) = obj_set k (JArr items) (migrated d).
Proof.
  apply migrated_fixed.
  destruct (String.eqb "generatedImages" k) eqn:E.
  - apply String.eqb_eq in E. subst k. rewrite obj_get_set_eq. reflexivity.
  - apply String.eqb_neq in E. rewrite obj_get_set_ne by exact E. apply migrated_truthy.
Qed.

Lemma obj_set_same (k : string) (v : json) (o : obj) :
  obj_get k o = Some v -> obj_set k v o = o.
Proof.
  induction o as [|[k' v'] o IH]; [discriminate |]. cbn [obj_get obj_set].
  destruct (String.eqb k k') eqn:E.
  - intros [= ->]. apply String.eqb_eq in E. subst k'. reflexivity.
  - intros H. rewrite (IH H). reflexivity.
Qed.

Lemma truthy_or_else (x : option json) (y : json) :
  truthy (Some y) = true -> truthy (or_else x y) = true.
Proof. intros Hy. unfold or_else. destruct (truthy x) eqn:E; [exact E | exact Hy]. Qed.

(** ** Reports and snapshots *)

Section Reports.

Variables (rt : Runtime) (w : World) (d : obj) (items : list json).
Hypothesis Hfile : fs w !! STORE_FILE rt = Some (StoreDoc d).

Lemma sustainability_saved (inputData report charts : option json) :
  obj_get "sustainabilityReports" (migrated d) = Some (JArr items) ->
  let entry := literal [("id", Some (JStr ("sust_" ++ dec (ms (clock rt (ticks w))))));
                        ("inputData", inputData); ("report", report);
                        ("charts", or_else charts (JArr []));
                        ("timestamp", Some (JStr (iso (clock rt (S (ticks w))))))] in
  post_sustainability rt inputData report charts w
  = (json_ok (JObj entry),
     after w (<[STORE_FILE rt := StoreDoc (obj_set "sustainabilityReports"
                                             (JArr (JObj entry :: items)) (migrated d))]>
                (fs w)) 2 0).
Proof.
  intros Harr entry. unfold post_sustainability, try_catch.
  step_with ltac:(apply readStore_present; exact Hfile).
  step. step.
  step_with ltac:(unfold lift; rewrite (unshift_get _ _ _ _ Harr); reflexivity).
  reflexivity.
Qed.

Lemma dashboard_saved (insights charts stats text : option json) :
  obj_get "dashboardSnapshots" (migrated d) = Some (JArr items) ->
  let entry := literal [("id", Some (JStr ("dash_" ++ dec (ms (clock rt (ticks w))))));
                        ("insights", insights);
                        ("charts", or_else charts (JArr []));
                        ("stats", or_else stats (JObj []));
                        ("text", or_else text (JStr ""));
                        ("timestamp", Some (JStr (iso (clock rt (S (ticks w))))))] in
  post_dashboard rt insights charts stats text w
  = (json_ok (JObj entry),
     after w (<[STORE_FILE rt := StoreDoc (obj_set "dashboardSnapshots"
                                             (JArr (JObj entry :: items)) (migrated d))]>
                (fs w)) 2 0).
Proof.
  intros Harr entry. unfold post_dashboard, try_catch.
  step_with ltac:(apply readStore_present; exact Hfile).
  step. step.
  step_with ltac:(unfold lift; rewrite (unshift_get _ _ _ _ Harr); reflexivity).
  reflexivity.
Qed.

End Reports.

Lemma or_else_Some (x : option json) (y : json) : exists v, or_else x y = Some v.
Proof.
  unfold or_else. destruct (truthy x) eqn:E; [| eexists; reflexivity].
  destruct x; [eexists; reflexivity | discriminate E].
Qed.

(** X7: a sustainability save answers with the entity it stores in front
    of [sustainabilityReports]: its id is [sust_] and the clock reading,
    its [charts] are the request's when truthy and [[]] otherwise, and its
    timestamp is the next clock reading. *)
Theorem sustainability_report_defaults (rt : Runtime) (w : World) (d : obj)
    (items : list json) (inputData report charts : option json) :
  fs w !! STORE_FILE rt = Some (StoreDoc d) ->
  obj_get "sustainabilityReports" (migrated d) = Some (JArr items) ->
  exists entry,
    fst (post_sustainability rt inputData report charts w) = json_ok (JObj entry)
    /\ obj_get "id" entry = Some (JStr ("sust_" ++ dec (ms (clock rt (ticks w)))))
    /\ obj_get "charts" entry = (if truthy charts then charts else Some (JArr []))
    /\ obj_get "timestamp" entry = Some (JStr (iso (clock rt (S (ticks w)))))
    /\ persisted_key rt "sustainabilityReports"
         (snd (post_sustainability rt inputData report charts w))
       = Some (Some (JArr (JObj entry :: items))).
Proof.
  intros Hfile Harr. eexists.
  rewrite (sustainability_saved rt w d items Hfile inputData report charts Harr).
  cbn [fst snd]. split; [reflexivity |]. split; [reflexivity |].
  split; [| split].
  - unfold or_else. destruct charts as [c|]; [destruct (truthy (Some c)) |];
      destruct inputData, report; reflexivity.
  - unfold or_else. destruct charts as [c|]; [destruct (truthy (Some c)) |];
      destruct inputData, report; reflexivity.
  - unfold persisted_key, after. cbn [fs]. rewrite lookup_insert_eq, obj_get_set_eq.
    reflexivity.
Qed.

Lemma sustainability_report_defaults_witness :
  fs w1 !! STORE_FILE rt0 = Some (StoreDoc doc1)
  /\ obj_get "sustainabilityReports" (migrated doc1) = Some (JArr [])
  /\ exists entry,
       fst (post_sustainability rt0 None (Some (JStr "ok")) None w1) = json_ok (JObj entry)
       /\ obj_get "charts" entry = Some (JArr []).
Proof.
  assert (Hfile : fs w1 !! STORE_FILE rt0 = Some (StoreDoc doc1))
    by (vm_compute; reflexivity).
  split; [exact Hfile |]. split; [reflexivity |].
  destruct (sustainability_report_defaults rt0 w1 doc1 [] None (Some (JStr "ok")) None
              Hfile eq_refl) as (entry & H1 & _ & H2 & _).
  exists entry. split; [exact H1 | exact H2].
Defined.


(** X8: a dashboard save stores in front of [dashboardSnapshots] an entity
    whose [charts], [stats] and [text] are the request's when truthy and
    [[]], [{}] and the empty string otherwise, and whose [insights] are
    the request's. *)
Theorem dashboard_snapshot_defaults (rt : Runtime) (w : World) (d : obj)
    (items : list json) (insights charts stats text : option json) :
  fs w !! STORE_FILE rt = Some (StoreDoc d) ->
  obj_get "dashboardSnapshots" (migrated d) = Some (JArr items) ->
  exists entry,
    fst (post_dashboard rt insights charts stats text w) = json_ok (JObj entry)
    /\ obj_get "charts" entry = (if truthy charts then charts else Some (JArr []))
    /\ obj_get "stats" entry = (if truthy stats then stats else Some (JObj []))
    /\ obj_get "text" entry = (if truthy text then text else Some (JStr ""))
    /\ obj_get "insights" entry = insights
    /\ persisted_key rt "dashboardSnapshots"
         (snd (post_dashboard rt insights charts stats text w))
       = Some (Some (JArr (JObj entry :: items))).
Proof.
  intros Hfile Harr. eexists.
  rewrite (dashboard_saved rt w d items Hfile insights charts stats text Harr).
  cbn [fst snd]. split; [reflexivity |].
  assert (Hor : forall x y, exists v, or_else x y = Some v
                  /\ Some v = (if truthy x then x else Some y)).
  { intros x y. unfold or_else. destruct (truthy x) eqn:E.
    - destruct x; [eexists; split; reflexivity | discriminate E].
    - eexists; split; reflexivity. }
  destruct (Hor charts (JArr [])) as (c & Hc & <-).
  destruct (Hor stats (JObj [])) as (s & Hs & <-).
  destruct (Hor text (JStr "")) as (t & Ht & <-).
  rewrite Hc, Hs, Ht.
  repeat split; try (destruct insights; reflexivity).
  unfold persisted_key, after. cbn [fs]. rewrite lookup_insert_eq, obj_get_set_eq.
  reflexivity.
Qed.

Lemma dashboard_snapshot_defaults_witness :
  fs w1 !! STORE_FILE rt0 = Some (StoreDoc doc1)
  /\ obj_get "dashboardSnapshots" (migrated doc1) = Some (JArr [])
  /\ exists entry,
       fst (post_dashboard rt0 None None (Some (JNum 0)) None w1) = json_ok (JObj entry)
       /\ obj_get "stats" entry = Some (JObj [])
       /\ obj_get "text" entry = Some (JStr "").
Proof.
  assert (Hfile : fs w1 !! STORE_FILE rt0 = Some (StoreDoc doc1))
    by (vm_compute; reflexivity).
  split; [exact Hfile |]. split; [reflexivity |].
  destruct (dashboard_snapshot_defaults rt0 w1 doc1 [] None None (Some (JNum 0)) None
              Hfile eq_refl) as (entry & H1 & _ & H2 & H3 & _).
  exists entry. split; [exact H1 |]. split; [exact H2 | exact H3].
Defined.


(** ** Newest first *)

(** X9: of two sustainability saves in a row, the second entity is stored
    before the first, and both before the entities that were there. *)
Theorem reports_are_newest_first (rt : Runtime) (w : World) (d : obj)
    (items : list json) (inputData1 report1 charts1 inputData2 report2 charts2 : option json) :
  fs w !! STORE_FILE rt = Some (StoreDoc d) ->
  obj_get "sustainabilityReports" (migrated d) = Some (JArr items) ->
  let w' := snd (post_sustainability rt inputData1 report1 charts1 w) in
  exists first second,
    fst (post_sustainability rt inputData1 report1 charts1 w) = json_ok (JObj first)
    /\ fst (post_sustainability rt inputData2 report2 charts2 w') = json_ok (JObj second)
    /\ persisted_key rt "sustainabilityReports"
         (snd (post_sustainability rt inputData2 report2 charts2 w'))
       = Some (Some (JArr (JObj second :: JObj first :: items))).
Proof.
  intros Hfile Harr w'. subst w'. eexists. eexists.
  rewrite (sustainability_saved rt w d items Hfile inputData1 report1 charts1 Harr).
  cbn [fst snd]. split; [reflexivity |].
  erewrite sustainability_saved.
  - cbn [fst snd]. split; [reflexivity |].
    unfold persisted_key, after. cbn [fs]. rewrite lookup_insert_eq, obj_get_set_eq.
    reflexivity.
  - cbn [after fs]. apply lookup_insert_eq.
  - rewrite migrated_set. apply obj_get_set_eq.
Qed.

Lemma reports_are_newest_first_witness :
  fs w1 !! STORE_FILE rt0 = Some (StoreDoc doc1)
  /\ obj_get "sustainabilityReports" (migrated doc1) = Some (JArr [])
  /\ exists first second,
       fst (post_sustainability rt0 None (Some (JStr "a")) None w1) = json_ok (JObj first)
       /\ persisted_key rt0 "sustainabilityReports"
            (snd (post_sustainability rt0 None (Some (JStr "b")) None
                    (snd (post_sustainability rt0 None (Some (JStr "a")) None w1))))
          = Some (Some (JArr [JObj second; JObj first])).
Proof.
  assert (Hfile : fs w1 !! STORE_FILE rt0 = Some (StoreDoc doc1))
    by (vm_compute; reflexivity).
  split; [exact Hfile |]. split; [reflexivity |].
  destruct (reports_are_newest_first rt0 w1 doc1 [] None (Some (JStr "a")) None
              None (Some (JStr "b")) None Hfile eq_refl)
    as (first & second & H1 & _ & H2).
  exists first, second. split; [exact H1 | exact H2].
Defined.


(** ** Round trips through the image files *)

(** X10: a vision save with a matching image payload answers an entity
    with a [vision_] id and an [img_..png] file name, the file holds the
    decoded payload, and a load right after lists the entity first in
    [visionAnalyses]. *)
Theorem vision_save_then_load (rt : Runtime) (w : World) (d : obj) (items : list json)
    (cameraName : option json) (imageData : option string) (payload : string)
    (task result : option json) :
  fs w !! STORE_FILE rt = Some (StoreDoc d) ->
  obj_get "visionAnalyses" (migrated d) = Some (JArr items) ->
  image_payload imageData = Some payload ->
  let saved := post_vision rt cameraName imageData task result w in
  let name := "img_" ++ dec (ms (clock rt (S (ticks w)))) ++ ".png" in
  exists entry doc,
    fst saved = json_ok (JObj entry)
    /\ obj_get "id" entry = Some (JStr ("vision_" ++ dec (ms (clock rt (ticks w)))))
    /\ obj_get "imageFile" entry = Some (JStr name)
    /\ fs (snd saved) !! (IMAGES_DIR rt ++ [name])%list
       = Some (Blob (Buffer_from_base64 rt payload))
    /\ fst (get_data rt (snd saved)) = json_ok (JObj doc)
    /\ obj_get "visionAnalyses" doc = Some (JArr (JObj entry :: items)).
Proof.
  intros Hfile Harr Hp saved name. subst saved. eexists. eexists.
  rewrite (vision_saved_with_image rt w d Hfile cameraName imageData task result
             payload items Harr Hp).
  cbn [fst snd]. split; [reflexivity |]. split; [reflexivity |].
  split; [apply literal_imageFile |]. split.
  - cbn [after fs]. rewrite lookup_insert_ne by (apply not_eq_sym, image_not_store).
    apply lookup_insert_eq.
  - rewrite (get_data_present rt _ _ (lookup_insert_eq _ _ _)).
    cbn [fst]. split; [reflexivity |]. rewrite migrated_set. apply obj_get_set_eq.
Qed.

Lemma vision_save_then_load_witness :
  fs w1 !! STORE_FILE rt0 = Some (StoreDoc doc1)
  /\ obj_get "visionAnalyses" (migrated doc1) = Some (JArr [JObj vision1])
  /\ image_payload (Some png_uri) = Some "iVBORw0KGgo="
  /\ exists entry doc,
       fst (post_vision rt0 (Some (JStr "Frente de Caixa")) (Some png_uri)
              (Some (JStr "count people")) None w1) = json_ok (JObj entry)
       /\ obj_get "imageFile" entry = Some (JStr "img_1700000000001.png")
       /\ obj_get "visionAnalyses" doc = Some (JArr [JObj entry; JObj vision1]).
Proof.
  assert (Hfile : fs w1 !! STORE_FILE rt0 = Some (StoreDoc doc1))
    by (vm_compute; reflexivity).
  split; [exact Hfile |]. split; [reflexivity |]. split; [reflexivity |].
  destruct (vision_save_then_load rt0 w1 doc1 [JObj vision1]
              (Some (JStr "Frente de Caixa")) (Some png_uri) "iVBORw0KGgo="
              (Some (JStr "count people")) None Hfile eq_refl eq_refl)
    as (entry & doc & H1 & _ & H2 & _ & _ & H3).
  exists entry, doc. split; [exact H1 |]. split; [exact H2 | exact H3].
Defined.


Lemma image_after_store (rt : Runtime) (files : gmap path file) (doc image : file)
    (name : string) :
  (<[STORE_FILE rt := doc]> (<[(IMAGES_DIR rt ++ [name])%list := image]> files))
    !! (IMAGES_DIR rt ++ [name])%list = Some image.
Proof.
  rewrite lookup_insert_ne by (apply not_eq_sym, image_not_store).
  apply lookup_insert_eq.
Qed.

(** X11: the file name a generated-image save answers is served right
    after by the image route, from the images directory, and holds the
    decoded payload. *)
Theorem generated_image_save_then_serve (rt : Runtime) (w : World) (d : obj)
    (items : list json) (cameraName : option json) (imageData : option string)
    (payload : string) :
  fs w !! STORE_FILE rt = Some (StoreDoc d) ->
  obj_get "generatedImages" (migrated d) = Some (JArr items) ->
  image_payload imageData = Some payload ->
  let saved := post_generated_image rt cameraName imageData w in
  exists name,
    body_field (fst saved) "imageFile" = Some (JStr name)
    /\ fst (get_image rt name (snd saved))
       = {| status := 200; body := SendFile (IMAGES_DIR rt ++ [name])%list |}
    /\ fs (snd saved) !! (IMAGES_DIR rt ++ [name])%list
       = Some (Blob (Buffer_from_base64 rt payload)).
Proof.
  intros Hfile Harr Hp saved. subst saved. eexists.
  pose proof (generated_image_saved rt w d Hfile cameraName imageData payload items
                Harr Hp) as Hrun. cbv zeta in Hrun. rewrite Hrun. clear Hrun.
  cbn [fst snd].
  split; [unfold body_field; cbn [body json_ok fst]; rewrite literal_imageFile; reflexivity |].
  split.
  - rewrite get_image_plain by apply gen_name_plain.
    cbn [after fs]. rewrite image_after_store. reflexivity.
  - cbn [after fs]. apply image_after_store.
Qed.

Lemma generated_image_save_then_serve_witness :
  fs w1 !! STORE_FILE rt0 = Some (StoreDoc doc1)
  /\ obj_get "generatedImages" (migrated doc1) = Some (JArr [])
  /\ image_payload (Some png_uri) = Some "iVBORw0KGgo="
  /\ exists name,
       body_field (fst (post_generated_image rt0 None (Some png_uri) w1)) "imageFile"
       = Some (JStr name)
       /\ fs (snd (post_generated_image rt0 None (Some png_uri) w1))
            !! (IMAGES_DIR rt0 ++ [name])%list = Some (Blob png1).
Proof.
  assert (Hfile : fs w1 !! STORE_FILE rt0 = Some (StoreDoc doc1))
    by (vm_compute; reflexivity).
  split; [exact Hfile |]. split; [reflexivity |]. split; [reflexivity |].
  destruct (generated_image_save_then_serve rt0 w1 doc1 [] None (Some png_uri)
              "iVBORw0KGgo=" Hfile eq_refl eq_refl) as (name & H1 & _ & H2).
  exists name. split; [exact H1 | exact H2].
Defined.


(** X12: deleting a generated image by the id its save answered succeeds,
    removes its file, and leaves the document as it was loaded before the
    save. *)
Theorem generated_image_save_then_delete (rt : Runtime) (w : World) (d : obj)
    (items : list json) (cameraName : option json) (imageData : option string)
    (payload : string) :
  fs w !! STORE_FILE rt = Some (StoreDoc d) ->
  obj_get "generatedImages" (migrated d) = Some (JArr items) ->
  image_payload imageData = Some payload ->
  let saved := post_generated_image rt cameraName imageData w in
  exists id name,
    body_field (fst saved) "id" = Some (JStr id)
    /\ body_field (fst saved) "imageFile" = Some (JStr name)
    /\ fst (delete_entry rt "generated-images" id (snd saved))
       = json_ok (JObj [("success", JBool true)])
    /\ fs (snd (delete_entry rt "generated-images" id (snd saved)))
       = <[STORE_FILE rt := StoreDoc (migrated d)]>
           (delete (IMAGES_DIR rt ++ [name])%list (fs w)).
Proof.
  intros Hfile Harr Hp saved. subst saved. eexists. eexists.
  pose proof (generated_image_saved rt w d Hfile cameraName imageData payload items
                Harr Hp) as Hrun. cbv zeta in Hrun. rewrite Hrun. clear Hrun.
  cbn [fst snd].
  split; [reflexivity |].
  split; [unfold body_field; cbn [body json_ok fst]; rewrite literal_imageFile; reflexivity |].
  match goal with
  | |- context [after w (<[_ := StoreDoc (obj_set _ (JArr (JObj ?e :: _)) _)]> ?files) 3 2] =>
      set (entry := e); set (fs1 := files)
  end.
  set (doc := obj_set "generatedImages" (JArr (JObj entry :: items)) (migrated d)).
  set (w' := after w (<[STORE_FILE rt := StoreDoc doc]> fs1) 3 2).
  assert (Hfile' : fs w' !! STORE_FILE rt = Some (StoreDoc doc))
    by apply lookup_insert_eq.
  assert (Harr' : obj_get "generatedImages" (migrated doc)
                  = Some (JArr (JObj entry :: items))).
  { subst doc. rewrite migrated_set. apply obj_get_set_eq. }
  assert (Hok : image_file_ok "generatedImages" entry = true).
  { unfold image_file_ok. subst entry. rewrite literal_imageFile.
    cbn [String.eqb Ascii.eqb Bool.eqb orb]. rewrite gen_name_plain. apply orb_true_r. }
  rewrite (delete_existing rt w' doc "generated-images" "generatedImages"
             (JObj entry :: items) _ Hfile' eq_refl Harr' 0 entry
             (findIndex_hit _ entry items eq_refl) eq_refl Hok).
  cbn [fst snd after fs]. split; [reflexivity |].
  unfold owned_image. subst entry. rewrite literal_imageFile.
  cbn [String.eqb Ascii.eqb Bool.eqb orb].
  change (splice1 0 (?x :: items)) with items.
  subst w' doc fs1. cbn [after fs].
  rewrite migrated_set, obj_set_set, (obj_set_same _ _ _ Harr).
  assert (Hne : forall x : string, String.eqb ("gen_" ++ x) "" = false) by reflexivity.
  rewrite Hne.
  rewrite delete_insert_ne by apply image_not_store.
  rewrite delete_insert_eq, insert_insert_eq. reflexivity.
Qed.

Lemma generated_image_save_then_delete_witness :
  fs w1 !! STORE_FILE rt0 = Some (StoreDoc doc1)
  /\ obj_get "generatedImages" (migrated doc1) = Some (JArr [])
  /\ image_payload (Some png_uri) = Some "iVBORw0KGgo="
  /\ exists id,
       body_field (fst (post_generated_image rt0 None (Some png_uri) w1)) "id"
       = Some (JStr id)
       /\ fst (delete_entry rt0 "generated-images" id
                 (snd (post_generated_image rt0 None (Some png_uri) w1)))
          = json_ok (JObj [("success", JBool true)]).
Proof.
  assert (Hfile : fs w1 !! STORE_FILE rt0 = Some (StoreDoc doc1))
    by (vm_compute; reflexivity).
  split; [exact Hfile |]. split; [reflexivity |]. split; [reflexivity |].
  destruct (generated_image_save_then_delete rt0 w1 doc1 [] None (Some png_uri)
              "iVBORw0KGgo=" Hfile eq_refl eq_refl) as (id & name & H1 & _ & H2 & _).
  exists id. split; [exact H1 | exact H2].
Defined.


(** ** What an operation leaves alone *)

Section Untouched.

Variable rt : Runtime.
Variable k : string.

Lemma persisted_key_fs (w w' : World) :
  fs w' = fs w -> persisted_key rt k w' = persisted_key rt k w.
Proof. intros H. unfold persisted_key. rewrite H. reflexivity. Qed.

Lemma keeps_key_same_files {A} (v : option json) (c : M A) :
  (forall w, fs (snd (c w)) = fs w) -> keeps_key rt k v c.
Proof.
  intros H w Hv. rewrite (persisted_key_fs w (snd (c w)) (H w)). exact Hv.
Qed.

Lemma keeps_key_bind {A B} (v : option json) (c : M A) (f : A -> M B) :
  keeps_key rt k v c ->
  (forall w a w', c w = (Ret a, w') -> keeps_key rt k v (f a)) ->
  keeps_key rt k v (bind c f).
Proof.
  intros Hc Hf w Hv. unfold bind.
  specialize (Hc w Hv). destruct (c w) as [[a | e] w'] eqn:E; cbn [snd] in Hc.
  - exact (Hf w a w' E w' Hc).
  - exact Hc.
Qed.

Lemma written_key (data : obj) (w : World) :
  persisted_key rt k (snd (writeStore rt data w)) = Some (obj_get k data).
Proof.
  unfold writeStore, bind, ensureDataDir, writeFileSync, persisted_key.
  cbn [snd fs with_fs]. rewrite lookup_insert_eq. reflexivity.
Qed.

Lemma write_end_key (data : obj) (r : Response) (w : World) :
  persisted_key rt k (snd (bind (writeStore rt data) (fun _ => ret r) w))
  = Some (obj_get k data).
Proof.
  unfold bind, ret. pose proof (written_key data w) as Hw.
  destruct (writeStore rt data w) as [[u | e] w']; cbn [snd] in *; exact Hw.
Qed.

Lemma keeps_key_write_end (v : option json) (data : obj) (r : Response) :
  obj_get k data = v ->
  keeps_key rt k v (bind (writeStore rt data) (fun _ => ret r)).
Proof. intros <- w _. apply write_end_key. Qed.

Lemma keeps_key_save_image (v : option json) (imageData : option string)
    (mk_name : M string) :
  (forall w, fs (snd (mk_name w)) = fs w) ->
  (forall w name w', mk_name w = (Ret name, w') -> is_plain name = true) ->
  keeps_key rt k v (save_image rt imageData mk_name).
Proof.
  intros Hmk Hplain. unfold save_image.
  destruct imageData as [data|]; [| apply keeps_key_same_files; reflexivity].
  destruct (negb _); [| apply keeps_key_same_files; reflexivity].
  destruct (data_uri_match data); [| apply keeps_key_same_files; reflexivity].
  apply keeps_key_bind; [apply keeps_key_same_files; exact Hmk |].
  intros w name w' Hname.
  apply keeps_key_bind; [| intros; apply keeps_key_same_files; reflexivity].
  intros u Hv. rewrite (path_join_plain _ _ (Hplain w name w' Hname)).
  unfold writeFileSync, persisted_key in *. cbn [snd fs with_fs].
  rewrite lookup_insert_ne by apply image_not_store. exact Hv.
Qed.

Lemma keeps_key_unshift_write (key : string) (entry store : obj) (r : Response) :
  k <> key ->
  keeps_key rt k (obj_get k store)
    (bind (lift (unshift key entry store))
          (fun store' => bind (writeStore rt store') (fun _ => ret r))).
Proof.
  intros Hne. apply keeps_key_bind; [apply keeps_key_same_files; reflexivity |].
  intros w store' w' H. unfold lift in H. injection H as H _.
  apply keeps_key_write_end.
  unfold unshift in H. destruct (as_array key "unshift" store); [| discriminate H].
  injection H as <-. apply obj_get_set_ne. exact Hne.
Qed.

Lemma keeps_key_harmless_write {A} (c : M A) (data : obj) (r : Response) :
  harmless c ->
  keeps_key rt k (obj_get k data)
    (bind c (fun _ => bind (writeStore rt data) (fun _ => ret r))).
Proof.
  intros Hc w Hv. unfold bind at 1.
  destruct (c w) as [[a | e] w'] eqn:E.
  - apply write_end_key.
  - cbn [snd]. rewrite (persisted_key_fs w w' (Hc w e w' E)). exact Hv.
Qed.

Hypothesis Hk : k <> "generatedImages".

Lemma loaded_then_key (body : obj -> M Response) (w : World) :
  (forall store, keeps_key rt k (obj_get k store) (body store)) ->
  persisted_key rt k (snd (try_catch (bind (readStore rt) body) w)) = loaded_key rt k w.
Proof.
  intros Hbody. rewrite snd_try_catch. unfold loaded_key.
  destruct (fs w !! STORE_FILE rt) as [[bytes | d] |] eqn:Hfile.
  - rewrite (bind_throw _ _ _ _ _ (readStore_blob rt w bytes Hfile)).
    rewrite (readStore_blob rt w bytes Hfile).
    unfold persisted_key. cbn [snd made fs]. rewrite Hfile. reflexivity.
  - rewrite (bind_ok _ _ _ _ _ (readStore_present rt w d Hfile)).
    rewrite (readStore_present rt w d Hfile).
    apply Hbody. unfold persisted_key. cbn [made fs]. rewrite Hfile.
    rewrite migrated_other by exact Hk. reflexivity.
  - rewrite (bind_ok _ _ _ _ _ (readStore_absent rt w Hfile)).
    rewrite (readStore_absent rt w Hfile).
    apply Hbody. unfold persisted_key. cbn [made fs with_fs].
    rewrite lookup_insert_eq. reflexivity.
Qed.

Ltac pure_steps :=
  repeat first
    [ apply keeps_key_same_files; reflexivity
    | apply keeps_key_bind; [| intros ? ? ? _] ].

Lemma untouched_by (op : operation) (w : World) :
  target op <> Some k ->
  persisted_key rt k (snd (run rt op w)) = loaded_key rt k w.
Proof.
  intros Ht.
  assert (Hne : forall key, target op = Some key -> k <> key).
  { intros key Hkey ->. apply Ht. exact Hkey. }
  destruct op; cbn [run target] in *.
  - unfold post_generated_image. apply loaded_then_key. intros store.
    apply keeps_key_bind; [apply keeps_key_same_files; reflexivity | intros ? t ? _].
    apply keeps_key_bind; [apply keeps_key_same_files; reflexivity | intros ? r ? _].
    cbv zeta. apply keeps_key_bind.
    { apply keeps_key_save_image; [reflexivity | apply gen_name_made]. }
    intros ? [f|] ? _; [| apply keeps_key_same_files; reflexivity].
    apply keeps_key_bind; [apply keeps_key_same_files; reflexivity | intros ? ts ? _].
    cbv zeta. apply keeps_key_unshift_write. apply Hne. reflexivity.
  - unfold post_vision. apply loaded_then_key. intros store.
    apply keeps_key_bind; [apply keeps_key_same_files; reflexivity | intros ? t ? _].
    cbv zeta. apply keeps_key_bind.
    { apply keeps_key_save_image; [reflexivity | apply img_name_made]. }
    intros ? f ? _.
    apply keeps_key_bind; [apply keeps_key_same_files; reflexivity | intros ? ts ? _].
    cbv zeta. apply keeps_key_unshift_write. apply Hne. reflexivity.
  - unfold post_chat. apply loaded_then_key. intros store.
    apply keeps_key_bind; [apply keeps_key_same_files; reflexivity | intros ? sessions ? _].
    apply keeps_key_bind; [apply keeps_key_same_files; reflexivity | intros ? found ? _].
    apply keeps_key_bind.
    { destruct id as [i|]; [destruct (negb _) |]; pure_steps. }
    intros ? id' ? _.
    apply keeps_key_bind.
    { destruct found as [i|]; [destruct (sessions !! i) |]; pure_steps. }
    intros ? startedAt ? _.
    apply keeps_key_bind; [apply keeps_key_same_files; reflexivity | intros ? ts ? _].
    cbv zeta. apply keeps_key_write_end. apply obj_get_set_ne. apply Hne. reflexivity.
  - unfold post_sustainability. apply loaded_then_key. intros store.
    apply keeps_key_bind; [apply keeps_key_same_files; reflexivity | intros ? t ? _].
    apply keeps_key_bind; [apply keeps_key_same_files; reflexivity | intros ? ts ? _].
    cbv zeta. apply keeps_key_unshift_write. apply Hne. reflexivity.
  - unfold post_dashboard. apply loaded_then_key. intros store.
    apply keeps_key_bind; [apply keeps_key_same_files; reflexivity | intros ? t ? _].
    apply keeps_key_bind; [apply keeps_key_same_files; reflexivity | intros ? ts ? _].
    cbv zeta. apply keeps_key_unshift_write. apply Hne. reflexivity.
  - unfold delete_entry. apply loaded_then_key. intros store.
    destruct (collectionMap collection) as [key|] eqn:Hkey.
    2:{ destruct (bool_decide _); apply keeps_key_same_files; reflexivity. }
    apply keeps_key_bind; [apply keeps_key_same_files; reflexivity | intros ? arr ? _].
    apply keeps_key_bind; [apply keeps_key_same_files; reflexivity | intros ? [idx|] ? _];
      [| apply keeps_key_same_files; reflexivity].
    rewrite <- (obj_get_set_ne k key (JArr (splice1 idx arr)) store (Hne key eq_refl)).
    apply keeps_key_harmless_write.
    destruct (_ || _); [| apply harmless_ret].
    apply harmless_bind_pure.
    { intros u. destruct (arr !! idx); reflexivity. }
    intros imageFile. destruct (truthy imageFile); [| apply harmless_ret].
    destruct imageFile as [[]|]; try apply harmless_throw.
    apply harmless_unlink_image.
Qed.

End Untouched.

(** X13: whatever the operation and the state of the disk, every
    property of the stored document other than the operation's own
    collection (and [generatedImages], which loading may add) is
    afterwards what the operation loaded. *)
Theorem operations_leave_other_properties (rt : Runtime) (op : operation) (w : World)
    (k : string) :
  k <> "generatedImages" ->
  target op <> Some k ->
  persisted_key rt k (snd (run rt op w)) = loaded_key rt k w.
Proof. intros Hk Ht. apply untouched_by; assumption. Qed.

Lemma operations_leave_other_properties_witness :
  "chatSessions" <> "generatedImages"
  /\ target (Delete "vision" "vision_1699999999000") <> Some "chatSessions"
  /\ persisted_key rt0 "chatSessions"
       (snd (run rt0 (Delete "vision" "vision_1699999999000") w1))
     = Some (Some (JArr [JObj chat1])).
Proof.
  assert (H1 : "chatSessions" <> "generatedImages") by discriminate.
  assert (H2 : target (Delete "vision" "vision_1699999999000") <> Some "chatSessions")
    by discriminate.
  split; [exact H1 |]. split; [exact H2 |].
  rewrite (operations_leave_other_properties rt0 _ w1 "chatSessions" H1 H2).
  vm_compute. reflexivity.
Defined.


(** ** Saves remove no file *)

Section Growing.

Variable rt : Runtime.

Lemma removes_nothing_same_files {A} (c : M A) :
  (forall w, fs (snd (c w)) = fs w) -> removes_nothing c.
Proof. intros H w. rewrite (H w). reflexivity. Qed.

Lemma removes_nothing_bind {A B} (c : M A) (f : A -> M B) :
  removes_nothing c -> (forall a, removes_nothing (f a)) -> removes_nothing (bind c f).
Proof.
  intros Hc Hf w. unfold bind. specialize (Hc w).
  destruct (c w) as [[a | e] w']; cbn [snd] in *; [| exact Hc].
  etransitivity; [exact Hc | apply Hf].
Qed.

Lemma removes_nothing_write (p : path) (f : file) : removes_nothing (writeFileSync p f).
Proof. intros w. unfold writeFileSync. cbn [snd fs with_fs]. rewrite dom_insert_L. set_solver. Qed.

Lemma removes_nothing_readStore : removes_nothing (readStore rt).
Proof.
  intros w. unfold readStore, bind, ensureDataDir. cbn [fs].
  destruct (fs w !! STORE_FILE rt) as [[|]|]; cbn [snd fs with_fs]; try reflexivity.
  rewrite dom_insert_L. set_solver.
Qed.

Lemma removes_nothing_writeStore (data : obj) : removes_nothing (writeStore rt data).
Proof.
  unfold writeStore. apply removes_nothing_bind.
  - apply removes_nothing_same_files. reflexivity.
  - intros _. apply removes_nothing_write.
Qed.

Lemma removes_nothing_save_image (imageData : option string) (mk_name : M string) :
  removes_nothing mk_name -> removes_nothing (save_image rt imageData mk_name).
Proof.
  intros H. unfold save_image.
  destruct imageData as [data|]; [| apply removes_nothing_same_files; reflexivity].
  destruct (negb _); [| apply removes_nothing_same_files; reflexivity].
  destruct (data_uri_match data); [| apply removes_nothing_same_files; reflexivity].
  apply removes_nothing_bind; [exact H | intros name].
  apply removes_nothing_bind; [apply removes_nothing_write | intros _].
  apply removes_nothing_same_files. reflexivity.
Qed.

Ltac grow :=
  cbv zeta;
  repeat first
    [ apply removes_nothing_readStore
    | apply removes_nothing_writeStore
    | apply removes_nothing_save_image
    | apply removes_nothing_same_files; reflexivity
    | apply removes_nothing_bind; [| intros ?; cbv zeta]
    | match goal with
      | |- removes_nothing (match ?x with _ => _ end) => destruct x
      end ].

(** X14: the five saving operations remove no file: every file that was
    on disk before is on disk after, whatever the request and whether the
    save succeeds or not. *)
Theorem saves_remove_no_file (op : operation) (w : World) :
  is_save op = true -> dom (fs w) ⊆ dom (fs (snd (run rt op w))).
Proof.
  intros Hsave.
  destruct op; try discriminate Hsave; cbn [run];
    unfold post_generated_image, post_vision, post_chat, post_sustainability,
      post_dashboard; rewrite snd_try_catch;
    match goal with
    | |- _ ⊆ dom (fs (snd (?c w))) => cut (removes_nothing c); [intros H; exact (H w) |]
    end; grow.
Qed.

End Growing.

Lemma saves_remove_no_file_witness :
  is_save (SaveVision None (Some png_uri) None None) = true
  /\ dom (fs w1) ⊆ dom (fs (snd (run rt0 (SaveVision None (Some png_uri) None None) w1))).
Proof.
  split; [reflexivity |].
  exact (saves_remove_no_file rt0 (SaveVision None (Some png_uri) None None) w1 eq_refl).
Defined.

End PersistenceMore.

(** * Properties of the responses and of the client *)

Module ClientFacts.
Import Persistence PersistenceFacts.

(** ** Status codes *)

Section Statuses.

Variable rt : Runtime.
Variable P : Response -> Prop.

Lemma answers_ret (r : Response) : P r -> answers P (ret r).
Proof. intros H w. exact H. Qed.

Lemma answers_throw (e : exn) : answers P (throw e).
Proof. intros w. exact I. Qed.

Lemma answers_bind {A} (c : M A) (f : A -> M Response) :
  (forall a, answers P (f a)) -> answers P (bind c f).
Proof.
  intros Hf w. unfold bind. destruct (c w) as [[a | e] w']; [apply Hf | exact I].
Qed.

Lemma answers_try_catch (handler : M Response) (w : World) :
  answers P handler -> (forall m, P (json_error 500 m)) -> P (fst (try_catch handler w)).
Proof.
  intros Hh H500. unfold try_catch. specialize (Hh w).
  destruct (handler w) as [[r | e] w']; [exact Hh | apply H500].
Qed.

End Statuses.

Lemma json_with_ok (allowed : list Z) (j : json) :
  200 ∈ allowed -> json_with allowed (json_ok j).
Proof. intros H. split; [exact H | eexists; reflexivity]. Qed.

Lemma json_with_error (allowed : list Z) (st : Z) (m : string) :
  st ∈ allowed -> json_with allowed (json_error st m).
Proof. intros H. split; [exact H | eexists; reflexivity]. Qed.

Ltac member := cbn; repeat first [apply list_elem_of_here | apply list_elem_of_further].

Ltac respond :=
  cbv zeta;
  repeat first
    [ apply answers_throw
    | apply answers_ret;
      first [apply json_with_ok; member | apply json_with_error; member]
    | apply answers_bind; intros ?; cbv zeta
    | match goal with
      | |- answers _ (match ?x with _ => _ end) => destruct x
      end ].

Lemma run_answers (rt : Runtime) (op : operation) (w : World) :
  json_with (statuses op) (fst (run rt op w)).
Proof.
  destruct op; cbn [run statuses];
    unfold post_generated_image, post_vision, post_chat, post_sustainability,
      post_dashboard, delete_entry;
    (apply answers_try_catch; [| intros m; apply json_with_error; member]);
    respond.
Qed.

(** X15: every response of the five saves and of the delete has a JSON
    body; its status is 200 or 500, or else 400 from the generated-image
    save and the delete only, or 404 from the delete only. *)
Theorem operation_statuses (rt : Runtime) (op : operation) (w : World) :
  status (fst (run rt op w)) ∈ statuses op
  /\ exists j, body (fst (run rt op w)) = Json j.
Proof. exact (run_answers rt op w). Qed.

(** ** The client's calls *)

Import Client.

(** X16: the client call of an operation returns the response body when
    the server answers 200; for every other answer it throws an [Error]
    whose message, and so the text shown to the user, is the call's fixed
    failure text, whatever the server's error message says. *)
Theorem persistence_failure_text (rt : Runtime) (op : operation) (w : World)
    (statusText : string) :
  exists j,
    Persistence.body (fst (run rt op w)) = Json j
    /\ let result :=
         unless_ok (over_http (Persistence.status (fst (run rt op w))) j statusText)
           (failure_text op) in
       (Persistence.status (fst (run rt op w)) = 200 /\ result = Returned j)
       \/ (Persistence.status (fst (run rt op w)) <> 200
           /\ result = Threw (AnError (failure_text op))
           /\ getUserErrorMessage (AnError (failure_text op))
              = Text (failure_text op)).
Proof.
  destruct (run_answers rt op w) as (Hst & j & Hj).
  exists j. split; [exact Hj |].
  unfold unless_ok, ok, over_http. cbn [http_status payload].
  set (st := Persistence.status (fst (run rt op w))) in *.
  assert (Hcases : st = 200 \/ st = 400 \/ st = 404 \/ st = 500).
  { destruct op; cbn [statuses] in Hst;
      repeat (apply elem_of_cons in Hst as [Hst | Hst]; [auto |]);
      inversion Hst. }
  destruct Hcases as [-> | [-> | [-> | ->]]];
    [left | right | right | right]; repeat split; discriminate.
Qed.

Section GatewayToClient.

Import Gateway.

Lemma canned_not_empty (error : GeminiError) :
  String.eqb (Gateway.message (parseGeminiError error)) "" = false
  /\ String.eqb (Gateway.code (parseGeminiError error)) "" = false.
Proof.
  destruct (GatewayFacts.parse_classify error) as [Hc _].
  rewrite Hc, GatewayFacts.parse_message.
  destruct (classify error); split; reflexivity.
Qed.

Lemma gateway_status_not_ok (error : GeminiError) :
  (200 <=? Gateway.status (parseGeminiError error))
  && (Gateway.status (parseGeminiError error) <=? 299) = false.
Proof.
  destruct (GatewayFacts.parse_classify error) as [_ Hs]. rewrite Hs.
  destruct (classify error); reflexivity.
Qed.

(** X17: for every upstream error, the client's [handleResponse] turns
    the gateway's answer into an [ApiError] carrying the gateway's
    message, status and code; [getUserErrorMessage] shows that message;
    and [isRateLimit], [isUnavailable] and [isAuthError] hold exactly for
    the rate-limited, service-unavailable and auth-error classes. *)
Theorem gateway_error_reaches_ui (endpoint : string) (error : GeminiError)
    (statusText fallbackMsg : string) :
  let parsed := parseGeminiError error in
  let h := handleGeminiError endpoint error in
  let e := {| Client.message := Text (Gateway.message parsed);
              Client.status := Gateway.status parsed;
              Client.code := JStr (Gateway.code parsed) |} in
  handleResponse (over_http (res_status h) (res_json h) statusText) fallbackMsg
  = Threw (AnApiError e)
  /\ getUserErrorMessage (AnApiError e) = Text (Gateway.message parsed)
  /\ (isRateLimit e = true <-> classify error = RateLimited)
  /\ (isUnavailable e = true <-> classify error = ServiceUnavailable)
  /\ (isAuthError e = true <-> classify error = AuthError).
Proof.
  intros parsed h e. subst h e.
  destruct (canned_not_empty error) as [Hm Hc].
  pose proof (gateway_status_not_ok error) as Hok.
  destruct (GatewayFacts.parse_classify error) as [_ Hs].
  fold parsed in Hm, Hc, Hok, Hs.
  split; [| split; [reflexivity |]].
  - unfold handleResponse, ok, over_http, handleGeminiError.
    cbn [http_status payload res_status res_json]. fold parsed. rewrite Hok.
    cbn [negb field obj_get String.eqb Ascii.eqb Bool.eqb truthy as_message].
    rewrite Hm, Hc. reflexivity.
  - unfold isRateLimit, isUnavailable, isAuthError. cbn [Client.status].
    rewrite Hs. destruct (classify error); cbn; repeat split; intros H;
      solve [reflexivity | discriminate H].
Qed.

End GatewayToClient.

End ClientFacts.

(** * Properties of the gateway's routes *)

Module AssistantFacts.
Import Gateway Assistant.

Section Facts.
Variable generateContent : Request -> Attempt.
Variable JSON_parse : string -> option json.
Variable insights_prompt : option json -> option json -> string.

Lemma prop_or_truthy (parsed : json) (k : string) (y : json) :
  truthy (Some y) = true -> truthy (Some (prop_or parsed k y)) = true.
Proof.
  intros Hy. unfold prop_or. destruct parsed; try exact Hy.
  destruct (obj_get k fields) as [v|]; [| exact Hy].
  destruct (truthy (Some v)) eqn:E; [exact E | exact Hy].
Qed.

(** X18: whenever one of the two text models replies, the store-insights
    route answers 200 with exactly a [text] and a [charts] property,
    [charts] truthy, whatever the reply holds; when the reply does not
    parse, [text] is the raw reply text and [charts] is empty. *)
Theorem insights_survive_any_reply (query context : option json) (response : AiResponse) :
  fst (generateText generateContent (insights_prompt context query) None)
  = Replied response ->
  exists t charts,
    fst (store_insights generateContent JSON_parse insights_prompt query context)
    = json_reply (JObj [("text", t); ("charts", charts)])
    /\ truthy (Some charts) = true
    /\ (t = JStr "" \/ truthy (Some t) = true)
    /\ (JSON_parse (text_or (text response) "{}") = None ->
        t = JStr (text_or (text response) "") /\ charts = JArr []).
Proof.
  intros Hgen. unfold store_insights.
  destruct (generateText generateContent (insights_prompt context query) None)
    as [attempt calls]. cbn [fst] in Hgen. subst attempt.
  destruct (JSON_parse (text_or (text response) "{}")) as [parsed|] eqn:Hparse.
  - destruct parsed;
      try (eexists; eexists; split; [reflexivity |]; split; [reflexivity |];
           split; [| discriminate]).
    1:{ unfold text_or. destruct (text response) as [s|]; [| left; reflexivity].
        destruct (String.eqb s "") eqn:E; [left; reflexivity | right].
        cbn [truthy]. rewrite E. reflexivity. }
    all: try (left; reflexivity).
    eexists; eexists. cbn [fst]. split; [reflexivity |].
    split; [apply prop_or_truthy; reflexivity |]. split; [| discriminate].
    unfold prop_or. destruct (obj_get "text" fields) as [v|]; [| left; reflexivity].
    destruct (truthy (Some v)) eqn:E; [right; exact E | left; reflexivity].
  - eexists; eexists. cbn [fst]. split; [reflexivity |]. split; [reflexivity |].
    split; [| intros _; split; reflexivity].
    unfold text_or. destruct (text response) as [s|]; [| left; reflexivity].
    destruct (String.eqb s "") eqn:E; [left; reflexivity | right].
    cbn [truthy]. rewrite E. reflexivity.
Qed.

Variable rt : Persistence.Runtime.
Variable Buffer_to_base64 : list Byte.byte -> string.
Variable JSON_text : obj -> list Byte.byte.
Variable analyze_prompt : option json -> string.

Abbreviation analyze := (analyze_image generateContent JSON_parse rt Buffer_to_base64
                       JSON_text analyze_prompt).
Abbreviation insights := (store_insights generateContent JSON_parse insights_prompt).

(** X19: when the primary text model fails, the route asks the fallback
    model with the same prompt; it answers 200 if the fallback replies,
    and otherwise reports the fallback's error, not the primary's. *)
Theorem fallback_error_is_reported (query context : option json) (first : GeminiError) :
  let primary := {| model := textModel; prompt := insights_prompt context query;
                    inlineData := None |} in
  let fallback := {| model := textModelFallback; prompt := insights_prompt context query;
                     inlineData := None |} in
  generateContent primary = Failed first ->
  snd (insights query context) = [primary; fallback]
  /\ match generateContent fallback with
     | Failed second => fst (insights query context) = handled "store-insights" second
     | Replied _ => status (fst (insights query context)) = 200
     end.
Proof.
  intros primary fallback Hfirst. unfold store_insights, generateText.
  fold primary. rewrite Hfirst. fold fallback.
  destruct (generateContent fallback) as [response | second].
  - split; [reflexivity |].
    cbn [fst]. destruct (JSON_parse _) as [[]|]; reflexivity.
  - split; reflexivity.
Qed.

(** X20: an image reference that is neither a [data:] URI nor an
    [/api/data/images/] path, or that names a file the images directory
    does not have, is answered with 400 and code [BAD_REQUEST] without
    any call to the remote model. *)
Theorem analysis_needs_an_image (w : Persistence.World) (data : string)
    (task : option json) :
  strip_prefix "data:" data = None ->
  (strip_prefix "/api/data/images/" data = None
   \/ exists name, data = "/api/data/images/" ++ name
                   /\ Persistence.is_plain name = true
                   /\ Persistence.fs w !! (Persistence.IMAGES_DIR rt ++ [name])%list = None) ->
  status (fst (analyze w (Some data) task)) = 400
  /\ obj_get "code" match body (fst (analyze w (Some data) task)) with
                    | JObj o => o
                    | _ => []
                    end = Some (JStr "BAD_REQUEST")
  /\ snd (analyze w (Some data) task) = [].
Proof.
  intros Hdata Hcase. unfold analyze_image, resolve_image. rewrite Hdata.
  destruct Hcase as [Hpath | (name & -> & Hplain & Habs)].
  - rewrite Hpath. repeat split.
  - rewrite PersistenceMore.strip_prefix_app.
    rewrite (PersistenceFacts.path_join_plain _ _ Hplain), Habs.
    rewrite PersistenceFacts.is_directory_image; [repeat split |].
    unfold Persistence.is_plain in Hplain. destruct (String.eqb name ""); [| reflexivity].
    rewrite andb_false_r in Hplain. discriminate Hplain.
Qed.

(** X21: once the image is resolved and a text model replies, the
    analysis route answers 200; the body is an object with truthy
    [charts], except that a reply parsing to an array is passed on as it
    is. *)
Theorem analysis_answers_any_reply (w : Persistence.World) (data : string)
    (task : option json) (base64Data : option string) (response : AiResponse) :
  resolve_image rt Buffer_to_base64 JSON_text w data = inr base64Data ->
  fst (generateText generateContent (analyze_prompt task) (Some base64Data))
  = Replied response ->
  status (fst (analyze w (Some data) task)) = 200
  /\ match body (fst (analyze w (Some data) task)) with
     | JObj o => truthy (obj_get "charts" o) = true
     | JArr items => JSON_parse (text_or (text response) "{}") = Some (JArr items)
     | _ => False
     end.
Proof.
  intros Hres Hgen. unfold analyze_image. rewrite Hres.
  destruct (generateText generateContent (analyze_prompt task) (Some base64Data))
    as [attempt calls]. cbn [fst] in Hgen. subst attempt. cbn [fst].
  destruct (candidates response) as [[|c cs]|]; try (split; reflexivity).
  destruct (JSON_parse (text_or (text response) "{}")) as [[]|];
    try (split; reflexivity).
  split; [reflexivity |]. cbn [body json_reply].
  destruct (truthy (obj_get "charts" fields)) eqn:E; cbn [negb].
  - exact E.
  - rewrite PersistenceFacts.obj_get_set_eq. reflexivity.
Qed.

Lemma includes_char_cons (sep a : ascii) (s : string) :
  includes (String sep "") (String a s) = Ascii.eqb a sep || includes (String sep "") s.
Proof.
  cbn [includes strip_prefix]. rewrite (Ascii.eqb_sym sep a).
  destruct (Ascii.eqb a sep); destruct s; reflexivity.
Qed.

Lemma split_on_plain (sep : ascii) (s : string) :
  includes (String sep "") s = false -> split_on sep s = [s].
Proof.
  induction s as [|a s IH]; [reflexivity |].
  rewrite includes_char_cons. intros H. apply orb_false_iff in H as [Ha Hs].
  cbn [split_on]. rewrite Ha, (IH Hs). reflexivity.
Qed.

Lemma split_on_app (sep : ascii) (a b : string) :
  includes (String sep "") a = false ->
  split_on sep (a ++ String sep b) = a :: split_on sep b.
Proof.
  induction a as [|c a IH]; intros H.
  - change ("" ++ String sep b) with (String sep b). cbn [split_on].
    rewrite Ascii.eqb_refl. reflexivity.
  - rewrite includes_char_cons in H. apply orb_false_iff in H as [Hc Ha].
    change (String c a ++ String sep b) with (String c (a ++ String sep b)).
    cbn [split_on]. rewrite Hc, (IH Ha). reflexivity.
Qed.

Lemma includes_char_app (sep : ascii) (s t : string) :
  includes (String sep "") (s ++ t)
  = includes (String sep "") s || includes (String sep "") t.
Proof.
  induction s as [|c s IH]; [reflexivity |].
  change (String c s ++ t) with (String c (s ++ t)).
  rewrite !includes_char_cons, IH. apply orb_assoc.
Qed.

Lemma word_has_no_comma (s : string) :
  Persistence.all_word s = true -> includes "," s = false.
Proof.
  induction s as [|c s IH]; [reflexivity |].
  cbn [Persistence.all_word]. intros H. apply andb_true_iff in H as [Hc Hs].
  rewrite (includes_char_cons "," c s), (IH Hs), orb_false_r.
  destruct (Ascii.eqb c ",") eqn:E; [| reflexivity].
  apply Ascii.eqb_eq in E. subst c. discriminate Hc.
Qed.

Lemma calls_start_with_primary (prompt : string) (inlineData : option (option string)) :
  hd_error (snd (generateText generateContent prompt inlineData))
  = Some {| model := textModel; prompt := prompt; inlineData := inlineData |}.
Proof. unfold generateText. destruct (generateContent _); reflexivity. Qed.

Lemma analyze_first_call (w : Persistence.World) (data : string) (task : option json)
    (base64Data : option string) :
  resolve_image rt Buffer_to_base64 JSON_text w data = inr base64Data ->
  hd_error (snd (analyze w (Some data) task))
  = Some {| model := textModel; prompt := analyze_prompt task;
            inlineData := Some base64Data |}.
Proof.
  intros Hres. unfold analyze_image. rewrite Hres.
  rewrite <- (calls_start_with_primary (analyze_prompt task) (Some base64Data)).
  destruct (generateText generateContent (analyze_prompt task) (Some base64Data))
    as [[response | error] calls]; reflexivity.
Qed.

Lemma append_assoc (s t u : string) : (s ++ t) ++ u = s ++ (t ++ u).
Proof.
  induction s as [|c s IH]; [reflexivity |].
  change ((String c s ++ t) ++ u) with (String c ((s ++ t) ++ u)).
  rewrite IH. reflexivity.
Qed.

(** X22: for an image the save routes accept, the analysis route sends the
    primary model exactly the payload the data URI pattern captures,
    provided the payload has no comma. *)
Theorem data_uri_payload_is_sent (w : Persistence.World) (data payload : string)
    (task : option json) :
  Persistence.data_uri_match data = Some payload ->
  includes "," payload = false ->
  hd_error (snd (analyze w (Some data) task))
  = Some {| model := textModel; prompt := analyze_prompt task;
            inlineData := Some (Some payload) |}.
Proof.
  intros Hm Hcomma. apply analyze_first_call.
  apply PersistenceMore.data_uri_match_sound in Hm
    as (subtype & -> & _ & Hword & _ & _).
  unfold resolve_image.
  change (strip_prefix "data:" ("data:image/" ++ subtype ++ ";base64," ++ payload))
    with (strip_prefix "data:" ("data:" ++ ("image/" ++ subtype ++ ";base64," ++ payload))).
  rewrite PersistenceMore.strip_prefix_app.
  change ("data:image/" ++ subtype ++ ";base64," ++ payload)
    with ("data:image/" ++ (subtype ++ (";base64" ++ String "," payload))).
  rewrite <- !append_assoc.
  rewrite split_on_app, (split_on_plain _ _ Hcomma); [reflexivity |].
  rewrite !includes_char_app, (word_has_no_comma subtype Hword). reflexivity.
Qed.

(** X23: the analysis route, given the path of an image a generated-image
    save has just stored, sends the primary model the base64 text of the
    bytes that save decoded and wrote. *)
Theorem saved_image_is_analyzed (w : Persistence.World) (d : obj) (items : list json)
    (cameraName : option json) (imageData : option string) (payload : string)
    (task : option json) :
  Persistence.fs w !! Persistence.STORE_FILE rt = Some (Persistence.StoreDoc d) ->
  obj_get "generatedImages" (Persistence.migrated d) = Some (JArr items) ->
  Persistence.image_payload imageData = Some payload ->
  let saved := Persistence.post_generated_image rt cameraName imageData w in
  exists name,
    Persistence.body_field (fst saved) "imageFile" = Some (JStr name)
    /\ hd_error (snd (analyze (snd saved) (Some ("/api/data/images/" ++ name)) task))
       = Some {| model := textModel; prompt := analyze_prompt task;
                 inlineData :=
                   Some (Some (Buffer_to_base64
                                 (Persistence.Buffer_from_base64 rt payload))) |}.
Proof.
  intros Hfile Harr Hp saved. subst saved. eexists.
  pose proof (PersistenceFacts.generated_image_saved rt w d Hfile cameraName imageData
                payload items Harr Hp) as Hrun. cbv zeta in Hrun. rewrite Hrun. clear Hrun.
  cbn [fst snd].
  split; [unfold Persistence.body_field; cbn [Persistence.body Persistence.json_ok];
          rewrite PersistenceFacts.literal_imageFile; reflexivity |].
  apply analyze_first_call. unfold resolve_image.
  match goal with
  | |- context [strip_prefix "data:" ("/api/data/images/" ++ ?n)] =>
      change (strip_prefix "data:" ("/api/data/images/" ++ n)) with (@None string)
  end.
  rewrite PersistenceMore.strip_prefix_app.
  rewrite PersistenceFacts.path_join_plain by apply PersistenceFacts.gen_name_plain.
  cbn [Persistence.after Persistence.fs].
  rewrite PersistenceMore.image_after_store. reflexivity.
Qed.

End Facts.

(** ** Examples *)

Example base64_round_trip :
  base64_encode (Persistence.base64_decode "iVBORw0KGgo=") = "iVBORw0KGgo=".
Proof. vm_compute. reflexivity. Qed.

Lemma insights_survive_any_reply_witness :
  fst (generateText busy_primary (ask None None) None)
  = Replied {| candidates := Some [JObj []]; text := Some "{}" |}
  /\ fst (store_insights busy_primary parse_empty_object ask None None)
     = json_reply (JObj [("text", JStr ""); ("charts", JArr [])]).
Proof.
  split; [reflexivity |].
  destruct (insights_survive_any_reply busy_primary parse_empty_object ask None None
              {| candidates := Some [JObj []]; text := Some "{}" |} eq_refl)
    as (t & charts & H & _).
  rewrite H. vm_compute in H. injection H as <- <-. reflexivity.
Defined.

Lemma fallback_error_is_reported_witness :
  down {| model := textModel; prompt := ask None None; inlineData := None |}
  = Failed (plain_error "503 UNAVAILABLE gemini-3-flash-preview")
  /\ status (fst (store_insights down parse_empty_object ask None None)) = 503
  /\ length (snd (store_insights down parse_empty_object ask None None)) = 2%nat.
Proof.
  split; [reflexivity |].
  destruct (fallback_error_is_reported down parse_empty_object ask None None
              (plain_error "503 UNAVAILABLE gemini-3-flash-preview") eq_refl)
    as [Hcalls Hreply].
  cbv zeta in Hcalls, Hreply. unfold down at 1 in Hreply. cbv beta iota in Hreply.
  rewrite Hcalls, Hreply. split; reflexivity.
Defined.

Lemma analysis_needs_an_image_witness :
  strip_prefix "data:" "https://example.com/a.png" = None
  /\ strip_prefix "/api/data/images/" "https://example.com/a.png" = None
  /\ status (fst (analyze_image down parse_empty_object Persistence.rt0 base64_encode
                    no_text look Persistence.w1 (Some "https://example.com/a.png") None))
     = 400
  /\ snd (analyze_image down parse_empty_object Persistence.rt0 base64_encode
            no_text look Persistence.w1 (Some "https://example.com/a.png") None) = [].
Proof.
  split; [reflexivity |]. split; [reflexivity |].
  destruct (analysis_needs_an_image down parse_empty_object Persistence.rt0 base64_encode
              no_text look Persistence.w1 "https://example.com/a.png" None eq_refl
              (or_introl eq_refl)) as (H1 & _ & H2).
  split; [exact H1 | exact H2].
Defined.

Lemma analysis_answers_any_reply_witness :
  resolve_image Persistence.rt0 base64_encode no_text Persistence.w1
    "/api/data/images/img_1699999999001.png" = inr (Some "iVBORw0KGgo=")
  /\ fst (generateText busy_primary (look None) (Some (Some "iVBORw0KGgo=")))
     = Replied {| candidates := Some [JObj []]; text := Some "{}" |}
  /\ status (fst (analyze_image busy_primary parse_empty_object Persistence.rt0
                    base64_encode no_text look Persistence.w1
                    (Some "/api/data/images/img_1699999999001.png") None))
     = 200.
Proof.
  assert (Hres : resolve_image Persistence.rt0 base64_encode no_text Persistence.w1
                   "/api/data/images/img_1699999999001.png" = inr (Some "iVBORw0KGgo="))
    by (vm_compute; reflexivity).
  split; [exact Hres |]. split; [reflexivity |].
  destruct (analysis_answers_any_reply busy_primary parse_empty_object Persistence.rt0
              base64_encode no_text look Persistence.w1
              "/api/data/images/img_1699999999001.png" None (Some "iVBORw0KGgo=")
              {| candidates := Some [JObj []]; text := Some "{}" |} Hres eq_refl)
    as [Hstatus _].
  exact Hstatus.
Defined.

Lemma data_uri_payload_is_sent_witness :
  Persistence.data_uri_match Persistence.png_uri = Some "iVBORw0KGgo="
  /\ includes "," "iVBORw0KGgo=" = false
  /\ hd_error (snd (analyze_image down parse_empty_object Persistence.rt0 base64_encode
                      no_text look Persistence.w1 (Some Persistence.png_uri) None))
     = Some {| model := textModel; prompt := look None;
               inlineData := Some (Some "iVBORw0KGgo=") |}.
Proof.
  split; [reflexivity |]. split; [reflexivity |].
  exact (data_uri_payload_is_sent down parse_empty_object Persistence.rt0 base64_encode
           no_text look Persistence.w1 Persistence.png_uri "iVBORw0KGgo=" None
           eq_refl eq_refl).
Defined.

Lemma saved_image_is_analyzed_witness :
  Persistence.fs Persistence.w1 !! Persistence.STORE_FILE Persistence.rt0
  = Some (Persistence.StoreDoc Persistence.doc1)
  /\ obj_get "generatedImages" (Persistence.migrated Persistence.doc1) = Some (JArr [])
  /\ Persistence.image_payload (Some Persistence.png_uri) = Some "iVBORw0KGgo="
  /\ exists name,
       hd_error (snd (analyze_image down parse_empty_object Persistence.rt0 base64_encode
                        no_text look
                        (snd (Persistence.post_generated_image Persistence.rt0 None
                                (Some Persistence.png_uri) Persistence.w1))
                        (Some ("/api/data/images/" ++ name)) None))
       = Some {| model := textModel; prompt := look None;
                 inlineData := Some (Some "iVBORw0KGgo=") |}.
Proof.
  assert (Hfile : Persistence.fs Persistence.w1 !! Persistence.STORE_FILE Persistence.rt0
                  = Some (Persistence.StoreDoc Persistence.doc1))
    by (vm_compute; reflexivity).
  split; [exact Hfile |]. split; [reflexivity |]. split; [reflexivity |].
  destruct (saved_image_is_analyzed down parse_empty_object Persistence.rt0
              base64_encode no_text look Persistence.w1 Persistence.doc1 [] None
              (Some Persistence.png_uri) "iVBORw0KGgo=" None Hfile eq_refl eq_refl)
    as (name & _ & H).
  exists name. rewrite H. vm_compute. reflexivity.
Defined.

End AssistantFacts.
